(** * KCC Query Assistant: the retrieval and fallback core of [utils.py]

    A shallow embedding of the functions of [src/utils.py]
    ([preprocess_kcc], [retrieve_context_with_score], [ask_gemma],
    [fallback_live_search], [fallback_search_alternative],
    [comprehensive_fallback_search]) and the properties of the
    specification that concern them.

    Conventions of the embedding.
    - A Python [str] is a Rocq [string] holding its UTF-8 bytes.
      Concatenation, [startswith] with an ASCII prefix, emptiness and
      [join] commute with that encoding.
    - A call that may raise returns a [py_result]; the search functions,
      which also call the providers, run in [io], a [py_result] together
      with the log of the provider calls made, and [try]/[except] is
      [try_except] there.  Exceptions outside [Exception] (interrupts,
      exits) are not modelled.
    - A [dict] with string keys and string values is a [gmap string string].
    - A float is a [spec_float] in its binary64 form.  The distances of
      FAISS are [numpy.float32]: a comparison of one with a Python float is
      made in single precision, after rounding the Python float.
    - The outside world (the CSV file, the pickled index, the [ollama]
      process, the two search providers) is an explicit argument.
    - The definitions come first, module by module in the order of the
      source; the properties follow, in modules named after them. *)

From Stdlib Require Import String Ascii ZArith List Bool Lia.
From Stdlib Require Import Floats.SpecFloat Sorting.Sorted.
From stdpp Require Import base option list strings gmap pretty.

Open Scope string_scope.

(** ** Python values *)

Module Py.

(** The newline character of the source's ["\n"]. *)
Definition nl : string := String (ascii_of_nat 10) "".

(** The exception classes the source names in its [except] clauses, and
    the ones its calls raise; each carries the text [str(e)] gives. *)
Inductive exn : Type :=
  | RequestException (msg : string)
  | KeyError (msg : string)
  | ImportError (msg : string)
  | OSError (msg : string)
  | OtherException (msg : string).

(** [str(e)] *)
Definition str_of_exn (e : exn) : string :=
  match e with
  | RequestException m | KeyError m | ImportError m | OSError m
  | OtherException m => m
  end.

Inductive py_result (A : Type) : Type :=
  | Return (a : A)
  | Raise (e : exn).
Arguments Return {A} a.
Arguments Raise {A} e.

#[global] Instance py_ret : MRet py_result := fun _ a => Return a.
#[global] Instance py_bind : MBind py_result := fun _ _ f m =>
  match m with
  | Return a => f a
  | Raise e => Raise e
  end.
#[global] Instance py_fmap : FMap py_result := fun _ _ f m =>
  match m with
  | Return a => Return (f a)
  | Raise e => Raise e
  end.

(** [repr] of a [str] without quotes or backslashes inside it, and of a
    list of such. *)
Definition repr_str (s : string) : string := "'" +:+ s +:+ "'".
Definition repr_list (l : list string) : string :=
  "[" +:+ String.concat ", " (repr_str <$> l) +:+ "]".

(** Truth value of a [str]: non-empty. *)
Definition truthy (s : string) : bool :=
  match s with
  | EmptyString => false
  | String _ _ => true
  end.

End Py.
Import Py.

(** ** [preprocess_kcc]: from the CSV table to the documents *)

Module Normalizer.

(** A row of a data frame.  A cell that pandas reads as missing ([NaN]) is
    absent from [cells]; a present cell maps to the text [str()] gives for
    its value.  [labels] are the column names of the frame the row
    comes from. *)
Record Series : Type := {
  labels : list string;
  cells : gmap string string
}.

(** An index label of a data frame: a row number, or a value read from the
    file, held as the text [str()] gives for it. *)
Inductive index_label : Type :=
  | Position (n : nat)
  | Named (s : string).

(** [str(idx)] *)
Definition str_of_label (l : index_label) : string :=
  match l with
  | Position n => pretty n
  | Named s => s
  end.

(** A data frame: its column names and its rows, each under its index
    label. *)
Record DataFrame : Type := {
  columns : list string;
  rows : list (index_label * gmap string string)
}.

(** The parsed CSV file: the header line and the records below it, each
    with its fields under the column names.  When the records have one
    field more than the header has names, pandas takes the first field of
    each record as its index label and the others as its cells:
    [index_col] is then [Some f], [f i] being the first field of the record
    at place [i], as [str()] prints what pandas read there; it is [None]
    for records as long as the header. *)
Record csv_table : Type := {
  header : list string;
  index_col : option (nat -> string);
  records : list (gmap string string)
}.

(** The index label of the record at place [i]: without an index column,
    the default index numbers the records from zero. *)
Definition row_label (t : csv_table) (i : nat) : index_label :=
  match index_col t with
  | None => Position i
  | Some f => Named (f i)
  end.

(** [pd.read_csv(input_path)] *)
Definition read_csv (t : csv_table) : DataFrame :=
  {| columns := header t;
     rows := imap (fun i r => (row_label t i, r)) (records t) |}.

Definition notna (r : gmap string string) (c : string) : bool :=
  bool_decide (is_Some (r !! c)).

(** [df.dropna(subset=...)]: a label of [subset] that is not a column
    raises [KeyError]; otherwise the rows with a missing cell under one of
    the labels go, and the others keep their index label. *)
Definition dropna (subset : list string) (df : DataFrame) : py_result DataFrame :=
  match List.filter (fun c => negb (bool_decide (c ∈ columns df))) subset with
  | [] =>
      Return {| columns := columns df;
                rows := List.filter (fun ir => forallb (notna ir.2) subset) (rows df) |}
  | missing => Raise (KeyError (repr_list missing))
  end.

(** [df.iterrows()] *)
Definition iterrows (df : DataFrame) : list (index_label * Series) :=
  (fun ir => (ir.1, {| labels := columns df; cells := ir.2 |})) <$> rows df.

(** [row[c]] *)
Definition getitem (row : Series) (c : string) : py_result (option string) :=
  if bool_decide (c ∈ labels row) then Return (cells row !! c)
  else Raise (KeyError (repr_str c)).

(** A cell inside an f-string: a missing value prints as [nan]. *)
Definition fmt (v : option string) : string := default "nan" v.

Record Document : Type := {
  id : string;
  content : string
}.

(** The f-string of lines 23 to 26. *)
Definition text_of_row (row : Series) : py_result string :=
  q ← getitem row "QueryText";
  a ← getitem row "KccAns";
  s ← getitem row "StateName";
  d ← getitem row "DistrictName";
  c ← getitem row "Crop";
  mret ("Query: " +:+ fmt q +:+ nl +:+ "Answer: " +:+ fmt a +:+ nl +:+
        "Meta: State=" +:+ fmt s +:+ ", District=" +:+ fmt d +:+
        ", Crop=" +:+ fmt c).

(** The loop of lines 22 to 27, [docs] being the list built so far. *)
Fixpoint for_rows (its : list (index_label * Series)) (docs : list Document)
  : py_result (list Document) :=
  match its with
  | [] => Return docs
  | (idx, row) :: rest =>
      text ← text_of_row row;
      for_rows rest (docs ++ [ {| id := str_of_label idx; content := text |} ])
  end.

(** [preprocess_kcc]: the result is the list written to [output_path]. *)
Definition preprocess_kcc (input : csv_table) : py_result (list Document) :=
  df ← dropna ["QueryText"; "KccAns"] (read_csv input);
  for_rows (iterrows df) [].

(** The columns the function reads, and whether the file has them all. *)
Definition read_columns : list string :=
  ["QueryText"; "KccAns"; "StateName"; "DistrictName"; "Crop"].
Definition has_columns (t : csv_table) : bool :=
  forallb (fun c => bool_decide (c ∈ header t)) read_columns.

(** The specification's words.  A record is kept when neither its query
    text nor its answer text is missing; the content of a document follows
    the template; [normalize_from i rs] makes one document for each kept
    record of [rs], numbered by its place in the file, [i] being the place
    of the first. *)
Definition retained (r : gmap string string) : bool :=
  notna r "QueryText" && notna r "KccAns".

Definition template (query answer region district crop : string) : string :=
  "Query: " +:+ query +:+ nl +:+ "Answer: " +:+ answer +:+ nl +:+
  "Meta: State=" +:+ region +:+ ", District=" +:+ district +:+
  ", Crop=" +:+ crop.

Definition document_of (i : nat) (r : gmap string string) : Document :=
  {| id := pretty i;
     content := template (fmt (r !! "QueryText")) (fmt (r !! "KccAns"))
                  (fmt (r !! "StateName")) (fmt (r !! "DistrictName"))
                  (fmt (r !! "Crop")) |}.

Fixpoint normalize_from (i : nat) (rs : list (gmap string string))
  : list Document :=
  match rs with
  | [] => []
  | r :: rest =>
      if retained r then document_of i r :: normalize_from (S i) rest
      else normalize_from (S i) rest
  end.

(** The same under the index labels [lab] of the frame, whatever they are:
    the document of a kept record carries the label of its place. *)
Definition labelled_document (l : index_label) (r : gmap string string)
  : Document :=
  {| id := str_of_label l; content := content (document_of 0 r) |}.

Fixpoint normalize_labelled (lab : nat -> index_label) (i : nat)
    (rs : list (gmap string string)) : list Document :=
  match rs with
  | [] => []
  | r :: rest =>
      if retained r
      then labelled_document (lab i) r :: normalize_labelled lab (S i) rest
      else normalize_labelled lab (S i) rest
  end.

End Normalizer.

(** ** [str.strip()] *)

Module Strip.

(** Whitespace in the sense of [str.isspace], as UTF-8: the one-byte
    characters U+0009 to U+000D, U+001C to U+001F and U+0020; the two-byte
    U+0085 and U+00A0; the three-byte U+1680, U+2000 to U+200A, U+2028,
    U+2029, U+202F, U+205F and U+3000. *)
Definition space1 (a : ascii) : bool :=
  let x := N_of_ascii a in
  ((9 <=? x) && (x <=? 13) || (28 <=? x) && (x <=? 32))%N.

Definition space2 (a b : ascii) : bool :=
  let x := N_of_ascii a in
  let y := N_of_ascii b in
  ((x =? 194) && ((y =? 133) || (y =? 160)))%N.

Definition space3 (a b c : ascii) : bool :=
  let x := N_of_ascii a in
  let y := N_of_ascii b in
  let z := N_of_ascii c in
  ((x =? 225) && (y =? 154) && (z =? 128)
   || (x =? 226) && (y =? 128)
      && ((128 <=? z) && (z <=? 138) || (z =? 168) || (z =? 169) || (z =? 175))
   || (x =? 226) && (y =? 129) && (z =? 159)
   || (x =? 227) && (y =? 128) && (z =? 128))%N.

Section tokens.
(** The characters to remove, by encoded length. *)
Variable w1 : ascii -> bool.
Variable w2 : ascii -> ascii -> bool.
Variable w3 : ascii -> ascii -> ascii -> bool.

(** Does the text begin with one of the characters? *)
Definition starts_with_token (s : list ascii) : bool :=
  match s with
  | a :: s1 =>
      w1 a ||
      match s1 with
      | b :: s2 =>
          w2 a b ||
          match s2 with
          | c :: _ => w3 a b c
          | [] => false
          end
      | [] => false
      end
  | [] => false
  end.

(** Remove the characters at the front, one after the other. *)
Fixpoint lstrip_with (s : list ascii) : list ascii :=
  match s with
  | a :: s1 =>
      if w1 a then lstrip_with s1
      else
        match s1 with
        | b :: s2 =>
            if w2 a b then lstrip_with s2
            else
              match s2 with
              | c :: s3 => if w3 a b c then lstrip_with s3 else s
              | [] => s
              end
        | [] => s
        end
  | [] => s
  end.

(** A text made of the characters only. *)
Inductive blank_with : list ascii -> Prop :=
  | blank_nil : blank_with []
  | blank_one a s : w1 a = true -> blank_with s -> blank_with (a :: s)
  | blank_two a b s : w2 a b = true -> blank_with s -> blank_with (a :: b :: s)
  | blank_three a b c s :
      w3 a b c = true -> blank_with s -> blank_with (a :: b :: c :: s).
End tokens.

Definition lstrip_bytes : list ascii -> list ascii :=
  lstrip_with space1 space2 space3.

(** The end of the text is the front of its reversal, where the bytes of
    a character come last byte first. *)
Definition rstrip_bytes (s : list ascii) : list ascii :=
  rev (lstrip_with space1 (fun b a => space2 a b)
                   (fun c b a => space3 a b c) (rev s)).

Definition blank : list ascii -> Prop := blank_with space1 space2 space3.
Definition starts_blank : list ascii -> bool :=
  starts_with_token space1 space2 space3.
Definition ends_blank (s : list ascii) : bool :=
  starts_with_token space1 (fun b a => space2 a b)
                    (fun c b a => space3 a b c) (rev s).

(** [s.strip()] *)
Definition strip (s : string) : string :=
  string_of_list_ascii (rstrip_bytes (lstrip_bytes (list_ascii_of_string s))).

End Strip.

(** ** Single precision

    FAISS returns its distances as [numpy.float32]; the thresholds they are
    compared with are Python floats, binary64.  numpy (2 and later) makes
    such a comparison in the precision of the [float32]: the Python float
    is first rounded to single precision, to nearest and ties to even.
    A float is a [spec_float] in its binary64 form, with a mantissa of 53
    bits; every [float32] has one. *)

Module Float32.

Local Open Scope Z_scope.

(** The absolute value of a rounded float. *)
Inductive magnitude : Type :=
  | MZero
  | MFinite (m : positive) (e : Z)
  | MInfinity.

(** The multiple of [2 ^ k] nearest to [m], the even one of two at the same
    distance. *)
Definition round_mantissa (k m : Z) : Z :=
  let q := m / 2 ^ k in
  let r := m mod 2 ^ k in
  let h := 2 ^ (k - 1) in
  (if r <? h then q
   else if h <? r then q + 1
   else if Z.even q then q else q + 1) * 2 ^ k.

(** [m * 2 ^ e] in single precision.  A [float32] keeps 24 of the 53 bits
    of the mantissa, fewer below [2 ^ -126] where its spacing stays
    [2 ^ -149]; nothing is left below [2 ^ -150], and [2 ^ 128] is
    infinite.  A mantissa outside the range of binary64 is taken at the
    nearest end of that range. *)
Definition round_magnitude (m : positive) (e : Z) : magnitude :=
  if 75 <? e then MInfinity
  else if e <? -202 then MZero
  else
    let m64 := Z.min (Z.max (Zpos m) (2 ^ 52)) (2 ^ 53 - 1) in
    let m32 := round_mantissa (Z.max 29 (-149 - e)) m64 in
    if m32 =? 0 then MZero
    else if m32 <? 2 ^ 53 then MFinite (Z.to_pos m32) e
    else if 75 <? e + 1 then MInfinity
    else MFinite (Z.to_pos (2 ^ 52)) (e + 1).

Definition signed (s : bool) (g : magnitude) : spec_float :=
  match g with
  | MZero => S754_zero s
  | MFinite m e => S754_finite s m e
  | MInfinity => S754_infinity s
  end.

(** [numpy.float32(x)] of a Python float [x] *)
Definition to_float32 (x : spec_float) : spec_float :=
  match x with
  | S754_finite s m e => signed s (round_magnitude m e)
  | _ => x
  end.

(** The order of magnitudes. *)
Definition magnitude_leb (g1 g2 : magnitude) : bool :=
  match g1, g2 with
  | MZero, _ => true
  | _, MInfinity => true
  | MFinite m1 e1, MFinite m2 e2 =>
      (e1 <? e2) || ((e1 =? e2) && (Zpos m1 <=? Zpos m2))
  | _, _ => false
  end.

(** The same rounding with the functions of the standard library: to
    binary32, and from there, exactly, back to the binary64 form. *)
Definition binary32_of (x : spec_float) : spec_float :=
  match x with
  | S754_finite s m e =>
      match binary_round 24 128 s m e with
      | S754_finite s' m' e' => binary_round 53 1024 s' m' e'
      | y => y
      end
  | _ => x
  end.

(** Equality of floats is decidable. *)
#[global] Instance spec_float_eq_dec : EqDecision spec_float.
Proof. solve_decision. Defined.

(** [x > y] and [x < y] for a [numpy.float32] [x] and a Python float [y] *)
Definition gt (x y : spec_float) : bool := SFltb (to_float32 y) x.

Definition lt (x y : spec_float) : bool := SFltb x (to_float32 y).

End Float32.

(** ** [retrieve_context_with_score] *)

Module Retrieval.

(** Distances and thresholds are IEEE 754 floats, [spec_float] with its
    comparisons [SFltb] and [SFleb]; the integer [0] the source returns
    where it has no distance is the float zero. *)
Definition zero : spec_float := S754_zero false.

(** [best_distance > score_threshold], the [numpy.float32] distance of
    FAISS against the Python float of the caller. *)
Definition gt (x y : spec_float) : bool := Float32.gt x y.

(** The unpickled FAISS store, through the one method the source calls:
    [db.similarity_search_with_score(query, k=top_k)], a list of pairs of
    a document's [page_content] and its distance. *)
Record VectorIndex : Type := {
  similarity_search_with_score :
    string -> nat -> py_result (list (string * spec_float))
}.

(** What the function finds outside itself: the outcome of
    [HuggingFaceEmbeddings(...)], and the file at [index_path], [None] when
    [os.path.exists] is false, otherwise the outcome of [pickle.load]. *)
Record store : Type := {
  embeddings : py_result unit;
  index_file : option (py_result VectorIndex)
}.

Definition retrieve_context_with_score (st : store) (query : string)
    (top_k : nat) (score_threshold : spec_float)
  : py_result (option string * spec_float) :=
  _ ← embeddings st;
  match index_file st with
  | None => Return (None, zero)
  | Some load =>
      db ← load;
      results ← similarity_search_with_score db query top_k;
      match results with
      | [] => Return (None, zero)
      | (_, best_distance) :: _ =>
          if gt best_distance score_threshold then Return (None, best_distance)
          else Return (Some (String.concat (nl +:+ nl) (fst <$> results)),
                       best_distance)
      end
  end.

(** The specification's reading of the returned pair. *)
Inductive RetrievalOutcome : Type :=
  | Accepted (contextText : string) (bestDistance : spec_float)
  | Rejected (bestDistance : spec_float).

Definition outcome (r : option string * spec_float) : RetrievalOutcome :=
  match r with
  | (Some c, d) => Accepted c d
  | (None, d) => Rejected d
  end.

End Retrieval.

(** ** [ask_gemma] *)

Module Synthesizer.

(** The [CompletedProcess] of [subprocess.run] with [capture_output] and
    [text]. *)
Record CompletedProcess : Type := {
  returncode : Z;
  stdout : string;
  stderr : string
}.

(** [subprocess.run(args, ...)] without [check]: it raises when the program
    cannot be started and returns the completed process otherwise, whatever
    its exit status. *)
Definition subprocess : Type := list string -> py_result CompletedProcess.

Definition prompt_of (query context : string) : string :=
  "Answer the user's question using the following agricultural advice:"
  +:+ nl +:+ nl +:+ context +:+ nl +:+ nl +:+ "Question: " +:+ query.

Definition ask_gemma (run : subprocess) (query context : string)
  : py_result string :=
  result ← run ["ollama"; "run"; "gemma:2b"; prompt_of query context];
  mret (Strip.strip (stdout result)).

End Synthesizer.

(** ** The fallback search: SerpAPI, then DuckDuckGo *)

Module Fallback.

(** The JSON body of a SerpAPI answer, as far as the source reads it: the
    list under ["organic_results"] and the object under ["answer_box"],
    each possibly absent; their members are objects with string fields. *)
Record serp_json : Type := {
  organic_results : option (list (gmap string string));
  answer_box : option (gmap string string)
}.

(** The calls that reach a provider. *)
Inductive event : Type :=
  | Get (url : string) (params : list (string * string)) (timeout : nat)
  | DdgsText (keywords : string) (max_results : nat).

(** The two providers.  [requests_get url params] is the outcome of
    [requests.get], [raise_for_status] and [json] together;
    [duckduckgo_search] is the outcome of the import of line 150 and, when
    the module is there, [DDGS().text]. *)
Record providers : Type := {
  requests_get : string -> list (string * string) -> py_result serp_json;
  duckduckgo_search :
    py_result (string -> nat -> py_result (list (gmap string string)))
}.

(** Computations that may raise and that log their provider calls; the
    log survives a raise. *)
Definition io (A : Type) : Type := list event -> py_result A * list event.

#[global] Instance io_ret : MRet io := fun _ a log => (Return a, log).
#[global] Instance io_bind : MBind io := fun _ _ f m log =>
  match m log with
  | (Return a, log') => f a log'
  | (Raise e, log') => (Raise e, log')
  end.

Definition lift {A : Type} (r : py_result A) : io A := fun log => (r, log).

Definition perform {A : Type} (ev : event) (r : py_result A) : io A :=
  fun log => (r, (log ++ [ev])%list).

(** [try: body except C1 as e: h1 except C2 as e: h2 ...]: the first
    clause whose class the exception belongs to handles it; with none, it
    propagates. *)
Definition try_except {A : Type} (body : io A)
    (clauses : list ((exn -> bool) * (exn -> io A))) : io A :=
  fun log =>
    match body log with
    | (Raise e, log') =>
        match List.find (fun h => h.1 e) clauses with
        | Some h => h.2 e log'
        | None => (Raise e, log')
        end
    | r => r
    end.

Definition is_RequestException (e : exn) : bool :=
  match e with RequestException _ => true | _ => false end.
Definition is_KeyError (e : exn) : bool :=
  match e with KeyError _ => true | _ => false end.
Definition is_ImportError (e : exn) : bool :=
  match e with ImportError _ => true | _ => false end.
Definition is_Exception (e : exn) : bool := true.

(** [not v] for a value that is [None] or a [str]. *)
Definition falsy (v : option string) : bool :=
  match v with
  | None => true
  | Some s => negb (truthy s)
  end.

(** [d.get(k, dflt)] and [d[k]] *)
Definition dict_get (d : gmap string string) (k dflt : string) : string :=
  default dflt (d !! k).
Definition dict_getitem (d : gmap string string) (k : string) : py_result string :=
  match d !! k with
  | Some v => Return v
  | None => Raise (KeyError (repr_str k))
  end.

(** The dictionaries appended to [results]. *)
Record item : Type := {
  title : string;
  snippet : string;
  source : string
}.

(** One turn of the loop of lines 101 to 111. *)
Definition organic_item (result : gmap string string) : option item :=
  let title := dict_get result "title" "" in
  let snippet := dict_get result "snippet" "" in
  let link := dict_get result "link" "" in
  if truthy snippet
  then Some {| title := title; snippet := snippet; source := link |}
  else None.

(** [results] as it stands at line 123. *)
Definition search_results (data : serp_json) : list item :=
  let results :=
    match organic_results data with
    | Some rs => omap organic_item rs
    | None => []
    end in
  match answer_box data with
  | Some box =>
      match box !! "snippet" with
      | Some s =>
          {| title := "Featured Answer"; snippet := s;
             source := dict_get box "link" "" |} :: results
      | None => results
      end
  | None => results
  end.

Definition result_text (i : nat) (title snippet source : string) : string :=
  "**Result " +:+ pretty i +:+ ":** " +:+ title +:+ nl +:+
  snippet +:+ nl +:+ "*Source: " +:+ source +:+ "*".

Definition separator : string := nl +:+ nl +:+ "---" +:+ nl +:+ nl.

(** Lines 124 to 134: [enumerate(results[:3], 1)]. *)
Definition live_search_text (data : serp_json) : string :=
  let results := search_results data in
  match results with
  | [] => "No relevant search results found for your agricultural query."
  | _ :: _ =>
      String.concat separator
        (imap (fun i r => result_text (S i) (title r) (snippet r) (source r))
              (take 3 results))
  end.

Definition search_url : string := "https://serpapi.com/search".

Definition fallback_live_search (w : providers) (query : string)
    (api_key : option string) (num_results : nat) : io string :=
  if falsy api_key then mret "Live search unavailable: No API key provided."
  else
    let enhanced_query := "agricultural advice " +:+ query +:+ " farming tips" in
    let params :=
      [("engine", "google"); ("q", enhanced_query);
       ("api_key", default "" api_key); ("num", pretty num_results);
       ("hl", "en"); ("gl", "us")] in
    try_except
      (data ← perform (Get search_url params 10) (requests_get w search_url params);
       mret (live_search_text data))
      [(is_RequestException, fun e =>
          mret ("Live search unavailable: Network error (" +:+ str_of_exn e +:+ ")"));
       (is_KeyError, fun e =>
          mret ("Live search unavailable: Invalid API response (" +:+ str_of_exn e +:+ ")"));
       (is_Exception, fun e =>
          mret ("Live search unavailable: " +:+ str_of_exn e))].

(** One turn of the loop of lines 159 to 163. *)
Definition ddg_text (i : nat) (result : gmap string string) : py_result string :=
  t ← dict_getitem result "title";
  b ← dict_getitem result "body";
  h ← dict_getitem result "href";
  mret (result_text i t b h).

Fixpoint ddg_loop (i : nat) (results : list (gmap string string))
    (formatted_results : list string) : py_result (list string) :=
  match results with
  | [] => Return formatted_results
  | result :: rest =>
      formatted_result ← ddg_text i result;
      ddg_loop (S i) rest (formatted_results ++ [formatted_result])
  end.

Definition fallback_search_alternative (w : providers) (query : string)
    (num_results : nat) : io string :=
  try_except
    (ddgs_text ← lift (duckduckgo_search w);
     let enhanced_query := "agricultural advice " +:+ query +:+ " farming" in
     results ← perform (DdgsText enhanced_query num_results)
                       (ddgs_text enhanced_query num_results);
     match results with
     | [] => mret "No relevant search results found."
     | _ :: _ =>
         formatted_results ← lift (ddg_loop 1 results []);
         mret (String.concat separator formatted_results)
     end)
    [(is_ImportError, fun _ =>
        mret "Alternative search unavailable: duckduckgo-search not installed.");
     (is_Exception, fun e =>
        mret ("Alternative search unavailable: " +:+ str_of_exn e))].

Definition serpapi_banner : string :=
  "üîç **Live Internet Search Results:**" +:+ nl +:+ nl.
Definition ddg_banner : string :=
  "üîç **Live Internet Search Results (via DuckDuckGo):**" +:+ nl +:+ nl.
Definition unavailable : string :=
  "üö´ **Live search currently unavailable.**" +:+ nl +:+ nl +:+
  "Please check your internet connection or API key configuration. " +:+
  "You can try rephrasing your query or ask about topics covered in the local KCC dataset.".

(** [comprehensive_fallback_search]: the first block yields [Some] where
    the source returns from inside it. *)
Definition comprehensive_fallback_search (w : providers) (query : string)
    (api_key : option string) : io string :=
  returned ←
    (if negb (falsy api_key) then
       serpapi_result ← fallback_live_search w query api_key 5;
       if negb (String.prefix "Live search unavailable" serpapi_result)
       then mret (Some (serpapi_banner +:+ serpapi_result))
       else mret None
     else mret None);
  match returned with
  | Some text => mret text
  | None =>
      ddg_result ← fallback_search_alternative w query 3;
      if negb (String.prefix "Alternative search unavailable" ddg_result)
      then mret (ddg_banner +:+ ddg_result)
      else mret unavailable
  end.

(** Names for the statements: the two provider calls a search for
    [query] can make, and the answer of SerpAPI to the first. *)
Definition serpapi_params (query : string) (api_key : option string)
  : list (string * string) :=
  [("engine", "google");
   ("q", "agricultural advice " +:+ query +:+ " farming tips");
   ("api_key", default "" api_key); ("num", "5"); ("hl", "en"); ("gl", "us")].
Definition serpapi_call (query : string) (api_key : option string) : event :=
  Get search_url (serpapi_params query api_key) 10.
Definition duckduckgo_call (query : string) : event :=
  DdgsText ("agricultural advice " +:+ query +:+ " farming") 3.
Definition serpapi_answer (w : providers) (query : string)
    (api_key : option string) : py_result serp_json :=
  requests_get w search_url (serpapi_params query api_key).

(** The DuckDuckGo side up to the text it gives, exceptions not yet
    caught: the import, the call, the loop. *)
Definition duckduckgo_answer (w : providers) (query : string)
  : py_result string :=
  ddgs_text ← duckduckgo_search w;
  results ← ddgs_text ("agricultural advice " +:+ query +:+ " farming") 3;
  match results with
  | [] => Return "No relevant search results found."
  | _ :: _ =>
      formatted_results ← ddg_loop 1 results [];
      Return (String.concat separator formatted_results)
  end.

End Fallback.

(** ** [build_vector_store] *)

Module Builder.

(** What the function finds outside itself: the outcome of
    [HuggingFaceEmbeddings(...)]; the outcome of opening [doc_path] and
    [json.load], a list of JSON objects with string members; the method
    [FAISS.from_documents] applied to the page contents; the outcome of
    opening [index_path] and [pickle.dump]. *)
Record sources : Type := {
  embeddings : py_result unit;
  docs_file : py_result (list (gmap string string));
  from_documents : list string -> py_result Retrieval.VectorIndex;
  dump : py_result unit
}.

(** [[Document(page_content=d['content']) for d in docs]], a document
    being its page content. *)
Fixpoint page_contents (docs : list (gmap string string))
  : py_result (list string) :=
  match docs with
  | [] => Return []
  | d :: rest =>
      c ← Fallback.dict_getitem d "content";
      cs ← page_contents rest;
      mret (c :: cs)
  end.

(** [build_vector_store]: the result is the store pickled to
    [index_path]. *)
Definition build_vector_store (s : sources) : py_result Retrieval.VectorIndex :=
  _ ← embeddings s;
  docs ← docs_file s;
  documents ← page_contents docs;
  db ← from_documents s documents;
  _ ← dump s;
  mret db.

(** The dictionary that [preprocess_kcc] appends for a document, as
    [json.load] gives it back. *)
Definition to_json (d : Normalizer.Document) : gmap string string :=
  {[ "id" := Normalizer.id d; "content" := Normalizer.content d ]}.

End Builder.

(** ** [app.py]: the query *)

Module App.

(** What the page shows.  [st.spinner] blocks leave nothing on the page
    and are not modelled; [expander_text label body] is [st.text(body)]
    inside [with st.expander(label)]. *)
Inductive widget : Type :=
  | success (body : string)
  | info (body : string)
  | warning (body : string)
  | error (body : string)
  | subheader (body : string)
  | markdown (body : string)
  | caption (body : string)
  | expander_text (label : string) (body : string).

(** What a run of the script does that can be seen from outside: a widget
    on the page, a process started, a call to a search provider. *)
Inductive effect : Type :=
  | Show (w : widget)
  | Run (args : list string)
  | Call (e : Fallback.event).

(** The world of the script: the index store, the [ollama] program, the
    search providers, the outcome of [st.secrets.get("SERPAPI_API_KEY")],
    and the two ways the script prints a float, [format(x, ".3f")] and
    [str(x)]. *)
Record world : Type := {
  index : Retrieval.store;
  ollama : Synthesizer.subprocess;
  web : Fallback.providers;
  secret : py_result (option string);
  format_3f : spec_float -> string;
  str_float : spec_float -> string
}.

(** Computations that may raise and that leave a trace of effects; the
    trace survives a raise. *)
Definition ui (A : Type) : Type := list effect -> py_result A * list effect.

#[global] Instance ui_ret : MRet ui := fun _ a tr => (Return a, tr).
#[global] Instance ui_bind : MBind ui := fun _ _ f m tr =>
  match m tr with
  | (Return a, tr') => f a tr'
  | (Raise e, tr') => (Raise e, tr')
  end.

Definition pure {A : Type} (r : py_result A) : ui A := fun tr => (r, tr).

Definition show (w : widget) : ui unit :=
  fun tr => (Return tt, (tr ++ [Show w])%list).

(** [try: body except Exception as e: handler] *)
Definition try_except_Exception {A : Type} (body : ui A) (handler : exn -> ui A)
  : ui A :=
  fun tr =>
    match body tr with
    | (Raise e, tr') => handler e tr'
    | r => r
    end.

(** [ask_gemma(query, context)], the process it starts put on the trace. *)
Definition ask (w : world) (query context : string) : ui string :=
  fun tr =>
    (Synthesizer.ask_gemma (ollama w) query context,
     (tr ++ [Run ["ollama"; "run"; "gemma:2b";
                  Synthesizer.prompt_of query context]])%list).

(** [comprehensive_fallback_search(query, api_key)], its provider calls
    put on the trace. *)
Definition search (w : world) (query : string) (api_key : option string)
  : ui string :=
  fun tr =>
    let r := Fallback.comprehensive_fallback_search (web w) query api_key [] in
    (r.1, (tr ++ (Call <$> r.2))%list).

(** The constants 0.7 and 1.2 of line 95, in binary64. *)
Definition c0_7 : spec_float := S754_finite false 6305039478318694 (-53).
Definition c1_2 : spec_float := S754_finite false 5404319552844595 (-52).

(** Line 95; the score is the [numpy.float32] distance of the retrieval,
    and each comparison is made in its precision. *)
Definition quality (score : spec_float) : string :=
  if Float32.lt score c0_7 then "High"
  else if Float32.lt score c1_2 then "Medium"
  else "Low".

(** [v or None] for a value that is [None] or a [str]. *)
Definition or_None (v : option string) : option string :=
  if Fallback.falsy v then None else v.

(** Truth value of [context], which is [None] or a [str]. *)
Definition found (context : option string) : bool :=
  negb (Fallback.falsy context).

(** Lines 80 to 147: what the script does with the text of the query
    box and the threshold of the slider. *)
Definition handle_query (w : world) (query : string)
    (similarity_threshold : spec_float) : ui unit :=
  if truthy query then
    r ← pure (Retrieval.retrieve_context_with_score (index w) query 3
                similarity_threshold);
    let context := r.1 in
    let score := r.2 in
    if found context then
      _ ← show (success "✅ **Found relevant information in local KCC dataset**");
      _ ← show (info ("📊 Context relevance: **" +:+ quality score +:+
                      "** (distance: " +:+ format_3f w score +:+ ")"));
      try_except_Exception
        (response ← ask w query (default "" context);
         _ ← show (subheader "🎯 Answer from KCC Dataset:");
         _ ← show (markdown response);
         show (expander_text "📖 View source context" (default "" context)))
        (fun e =>
           _ ← show (error ("❌ Error getting response from local model: " +:+ str_of_exn e));
           show (info "💡 Make sure Ollama is running with Gemma 2B model"))
    else
      _ ← show (warning "⚠️ **No relevant local context found in KCC dataset**");
      _ ← show (info ("Similarity threshold: " +:+
                      str_float w similarity_threshold +:+
                      " | Best match distance: " +:+ format_3f w score));
      _ ← show (markdown "🌐 **Searching the internet for agricultural advice...**");
      v ← pure (secret w);
      let api_key := or_None v in
      try_except_Exception
        (live_results ← search w query api_key;
         _ ← show (subheader "🌐 Live Internet Search Results:");
         _ ← show (markdown live_results);
         show (caption ("⚠️ **Disclaimer:** These results are from live internet search " +:+
                        "and may not be verified agricultural advice. Please consult " +:+
                        "local agricultural experts for specific recommendations.")))
        (fun e =>
           _ ← show (error ("❌ Fallback search failed: " +:+ str_of_exn e));
           show (info ("💡 **Suggestions:**" +:+ nl +:+
                       "- Check your internet connection" +:+ nl +:+
                       "- Verify SerpAPI key in secrets" +:+ nl +:+
                       "- Try a different query" +:+ nl +:+
                       "- Ask about topics covered in the KCC dataset")))
  else mret tt.

(** The widgets, the processes and the provider calls of a trace. *)
Definition shown (tr : list effect) : list widget :=
  omap (fun x => match x with Show w => Some w | _ => None end) tr.
Definition runs (tr : list effect) : list (list string) :=
  omap (fun x => match x with Run a => Some a | _ => None end) tr.
Definition calls (tr : list effect) : list Fallback.event :=
  omap (fun x => match x with Call e => Some e | _ => None end) tr.

End App.

(** ** Concrete inputs for the examples *)

Module Inputs.
Import Retrieval.

(** Floats for the examples: 0.5, 1.0, 1.5 and 2.0 in binary64. *)
Definition half : spec_float := S754_finite false 4503599627370496 (-53).
Definition one : spec_float := S754_finite false 4503599627370496 (-52).
Definition one_and_half : spec_float := S754_finite false 6755399441055744 (-52).
Definition two : spec_float := S754_finite false 4503599627370496 (-51).

(** An index of two documents, the second far from every query. *)
Definition two_docs : VectorIndex :=
  {| similarity_search_with_score := fun _ k =>
       Return (take k [("near", half); ("far", two)]) |}.
Definition built : store :=
  {| embeddings := Return tt; index_file := Some (Return two_docs) |}.

(** An index whose nearest document is at distance 1.5. *)
Definition distant : store :=
  {| embeddings := Return tt;
     index_file := Some (Return
       {| similarity_search_with_score := fun _ _ =>
            Return [("d", one_and_half)] |}) |}.

(** The Python floats 0.6 and 1.2, the double before 1.2, and the
    [float32]s next to 0.6 and 1.2, 0.60000002384185791015625 and
    1.2000000476837158203125, above them. *)
Definition c0_6 : spec_float := S754_finite false 5404319552844595 (-53).
Definition f0_6 : spec_float := S754_finite false 5404319767592960 (-53).
Definition below_1_2 : spec_float := S754_finite false 5404319552844594 (-52).
Definition f1_2 : spec_float := S754_finite false 5404319767592960 (-52).

(** An index whose only document is at the distance [f0_6], and one whose
    only document is at the distance [f1_2]. *)
Definition at_0_6 : store :=
  {| embeddings := Return tt;
     index_file := Some (Return
       {| similarity_search_with_score := fun _ _ =>
            Return [("c", f0_6)] |}) |}.
Definition at_1_2 : store :=
  {| embeddings := Return tt;
     index_file := Some (Return
       {| similarity_search_with_score := fun _ _ =>
            Return [("c", f1_2)] |}) |}.

(** A grid of floats of both signs around the places where rounding to
    single precision changes: for exponents over the range of single
    precision, below it and above it, the mantissas at every quarter of
    the spacing of [float32] from the start of the binade, their
    successors, and those at the end of the binade. *)
Definition grid : list spec_float :=
  e ← [-210; -204; -203; -202; -201; -200; -190; -180; -179; -178; -177;
       -100; -54; -53; -52; 0; 74; 75; 76]%Z;
  c ← seqZ 0 40;
  m ← [2 ^ 52 + c * 2 ^ (Z.max 29 (-149 - e) - 2);
       2 ^ 52 + c * 2 ^ (Z.max 29 (-149 - e) - 2) + 1;
       2 ^ 53 - 1 - c * 2 ^ (Z.max 29 (-149 - e) - 2);
       2 ^ 53 - c * 2 ^ (Z.max 29 (-149 - e) - 2)
       - 2 ^ (Z.max 29 (-149 - e) - 3)]%Z;
  if bool_decide (2 ^ 52 <= m < 2 ^ 53)%Z
  then [S754_finite false (Z.to_pos m) e; S754_finite true (Z.to_pos m) e]
  else [].

(** Floats on which the rounding to single precision is compared with that
    of the standard library: the constants, ties between two [float32]s (at
    [1 + 2 ^ -24]) and their neighbours, the largest [float32] and the
    first float that is infinite, the subnormal [float32]s down to the
    half of the smallest, both signs, zeros, infinity and NaN. *)
Definition floats : list spec_float :=
  [S754_finite false 7205759403792794 (-54);
   S754_finite false 4503599627370496 (-53);
   S754_finite false 5404319552844595 (-53);
   S754_finite false 6305039478318694 (-53);
   S754_finite false 4503599627370496 (-52);
   S754_finite false 5404319552844595 (-52);
   S754_finite false 5404319552844594 (-52);
   S754_finite false 6755399441055744 (-52);
   S754_finite false 8106479329266893 (-52);
   S754_finite false 4503599627370496 (-51);
   S754_finite false 4503599895805952 (-52);
   S754_finite false 4503599895805953 (-52);
   S754_finite false 4503600432676864 (-52);
   S754_finite false 9007199120523264 (-52);
   S754_finite true 5404319552844595 (-53);
   S754_finite true 4503599895805952 (-52);
   S754_finite false 9007198986305535 (75);
   S754_finite false 9007198986305536 (75);
   S754_finite false 6617444900424221 (77);
   S754_finite true 6617444900424221 (77);
   S754_finite false 4503599627370496 (-178);
   S754_finite false 4903985730770844 (-185);
   S754_finite false 4503599627370496 (-201);
   S754_finite false 4503599627370496 (-202);
   S754_finite false 4503599627370497 (-202);
   S754_finite false 6755399441055744 (-201);
   S754_finite false 5142201741628769 (-205);
   S754_finite false 1 (-1074);
   S754_finite true 5142201741628769 (-205);
   S754_zero false;
   S754_zero true;
   S754_infinity false;
   S754_nan].

(** A file of four records: the first and the third lack the answer, the
    others lack the state and the district. *)
Definition asked_only : gmap string string := {[ "QueryText" := "q" ]}.
Definition answered : gmap string string :=
  {[ "QueryText" := "How to control aphids?"; "KccAns" := "Spray neem oil.";
     "Crop" := "mustard" ]}.
Definition four_records : Normalizer.csv_table :=
  {| Normalizer.header := Normalizer.read_columns;
     Normalizer.index_col := None;
     Normalizer.records := [asked_only; answered; asked_only; answered] |}.

(** A file whose records have one field more than the header: the first
    fields, [r1], [r2] and so on, are the index labels. *)
Definition labelled_records : Normalizer.csv_table :=
  {| Normalizer.header := Normalizer.read_columns;
     Normalizer.index_col := Some (fun i => "r" +:+ pretty (S i));
     Normalizer.records := [answered; asked_only; answered] |}.

(** The same records in a file without the [Crop] column. *)
Definition without_crop : Normalizer.csv_table :=
  {| Normalizer.header := ["QueryText"; "KccAns"; "StateName"; "DistrictName"];
     Normalizer.index_col := None;
     Normalizer.records := [asked_only; answered] |}.

(** Search results. *)
Definition aphids_page : gmap string string :=
  {[ "title" := "Aphids"; "body" := "Use neem oil.";
     "href" := "https://example.org/a" ]}.
Definition mustard_page : gmap string string :=
  {[ "title" := "Mustard"; "body" := "Sow in October.";
     "href" := "https://example.org/m" ]}.
Definition bodyless_page : gmap string string :=
  {[ "title" := "Aphids"; "body" := ""; "href" := "https://example.org/a" ]}.
Definition organic (n : string) : gmap string string :=
  {[ "title" := "Title " +:+ n; "snippet" := "Text " +:+ n;
     "link" := "https://example.org/" +:+ n ]}.
Definition title_only : gmap string string := {[ "title" := "No text" ]}.

(** SerpAPI answers without any result; DuckDuckGo would have two. *)
Definition empty_then_two : Fallback.providers :=
  {| Fallback.requests_get := fun _ _ =>
       Return {| Fallback.organic_results := Some [];
                 Fallback.answer_box := None |};
     Fallback.duckduckgo_search :=
       Return (fun _ _ => Return [aphids_page; mustard_page]) |}.

(** SerpAPI times out; DuckDuckGo has two results. *)
Definition timeout_then_two : Fallback.providers :=
  {| Fallback.requests_get := fun _ _ => Raise (RequestException "timed out");
     Fallback.duckduckgo_search :=
       Return (fun _ _ => Return [aphids_page; mustard_page]) |}.

(** SerpAPI times out; DuckDuckGo answers with no result. *)
Definition timeout_then_none : Fallback.providers :=
  {| Fallback.requests_get := fun _ _ => Raise (RequestException "timed out");
     Fallback.duckduckgo_search := Return (fun _ _ => Return []) |}.

(** SerpAPI times out; the DuckDuckGo package is not installed. *)
Definition timeout_then_missing : Fallback.providers :=
  {| Fallback.requests_get := fun _ _ => Raise (RequestException "timed out");
     Fallback.duckduckgo_search :=
       Raise (ImportError "No module named 'duckduckgo_search'") |}.

(** DuckDuckGo answers with one result whose body is empty. *)
Definition only_bodyless : Fallback.providers :=
  {| Fallback.requests_get := fun _ _ => Raise (RequestException "timed out");
     Fallback.duckduckgo_search := Return (fun _ _ => Return [bodyless_page]) |}.

(** A SerpAPI answer with five organic results, the second without a
    snippet, and an answer box. *)
Definition five_and_box : Fallback.serp_json :=
  {| Fallback.organic_results :=
       Some [organic "1"; title_only; organic "2"; organic "3"; organic "4"];
     Fallback.answer_box :=
       Some {[ "snippet" := "Neem oil controls aphids.";
               "link" := "https://example.org/box" ]} |}.

(** A SerpAPI answer whose answer box has an empty snippet. *)
Definition empty_box : Fallback.serp_json :=
  {| Fallback.organic_results := None;
     Fallback.answer_box := Some {[ "snippet" := "" ]} |}.

(** An [ollama] that starts and exits with status 1, nothing on its
    standard output. *)
Definition failing_ollama : Synthesizer.subprocess := fun _ =>
  Return {| Synthesizer.returncode := 1; Synthesizer.stdout := "";
            Synthesizer.stderr := "Error: model not found" |}.

(** An [ollama] that answers with blank lines around its text. *)
Definition padded_ollama : Synthesizer.subprocess := fun _ =>
  Return {| Synthesizer.returncode := 0;
            Synthesizer.stdout := nl +:+ " Spray neem oil. " +:+ nl;
            Synthesizer.stderr := "" |}.

(** No index file. *)
Definition unbuilt : store :=
  {| embeddings := Return tt; index_file := None |}.

End Inputs.

(** ** Further inputs *)

Module Scenarios.

(** A file without the [QueryText] column, and one without the [StateName]
    and [Crop] columns. *)
Definition no_query_column : Normalizer.csv_table :=
  {| Normalizer.header := ["KccAns"; "StateName"; "DistrictName"; "Crop"];
     Normalizer.index_col := None;
     Normalizer.records := [Inputs.answered] |}.
Definition no_state_column : Normalizer.csv_table :=
  {| Normalizer.header := ["QueryText"; "KccAns"; "DistrictName"];
     Normalizer.index_col := None;
     Normalizer.records := [Inputs.asked_only; Inputs.answered] |}.

(** An index whose only document has an empty content, and one whose
    nearest distance is not a number. *)
Definition blank_document : Retrieval.store :=
  {| Retrieval.embeddings := Return tt;
     Retrieval.index_file := Some (Return
       {| Retrieval.similarity_search_with_score := fun _ _ =>
            Return [("", Inputs.half)] |}) |}.
Definition nan_distance : Retrieval.store :=
  {| Retrieval.embeddings := Return tt;
     Retrieval.index_file := Some (Return
       {| Retrieval.similarity_search_with_score := fun _ _ =>
            Return [("d", S754_nan); ("e", Inputs.two)] |}) |}.

(** The embedding model cannot be built, and there is no index file. *)
Definition no_model : Retrieval.store :=
  {| Retrieval.embeddings := Raise (OSError "model not found");
     Retrieval.index_file := None |}.

(** SerpAPI answers with a result whose title and snippet both begin
    like the text of a failure. *)
Definition misleading_title : Fallback.providers :=
  {| Fallback.requests_get := fun _ _ =>
       Return {| Fallback.organic_results :=
                   Some [ {[ "title" := "Live search unavailable";
                             "snippet" := "Live search unavailable: try later" ]} ];
                 Fallback.answer_box := None |};
     Fallback.duckduckgo_search := Return (fun _ _ => Return []) |}.

(** DuckDuckGo answers with a good result and one without a body. *)
Definition one_without_body : Fallback.providers :=
  {| Fallback.requests_get := fun _ _ => Raise (RequestException "timed out");
     Fallback.duckduckgo_search :=
       Return (fun _ _ => Return [Inputs.aphids_page; Inputs.title_only]) |}.

(** What [build_vector_store] finds after [preprocess_kcc] on
    [four_records], and what it finds when one entry of the documents file
    has no content. *)
Definition after_preprocess : Builder.sources :=
  {| Builder.embeddings := Return tt;
     Builder.docs_file :=
       Return (Builder.to_json <$>
               [Normalizer.document_of 1 Inputs.answered;
                Normalizer.document_of 3 Inputs.answered]);
     Builder.from_documents := fun contents =>
       Return {| Retrieval.similarity_search_with_score := fun _ k =>
                   Return (take k ((fun c => (c, Inputs.half)) <$> contents)) |};
     Builder.dump := Return tt |}.
Definition entry_without_content : Builder.sources :=
  {| Builder.embeddings := Return tt;
     Builder.docs_file :=
       Return [Builder.to_json (Normalizer.document_of 0 Inputs.answered);
               {[ "id" := "1" ]}];
     Builder.from_documents := Builder.from_documents after_preprocess;
     Builder.dump := Return tt |}.

(** Worlds of the script: floats are printed by a stand-in. *)
Definition print_float (x : spec_float) : string := "x".

(** The index has a near document and [ollama] answers. *)
Definition local_world : App.world :=
  {| App.index := Inputs.built; App.ollama := Inputs.padded_ollama;
     App.web := Inputs.timeout_then_two; App.secret := Return (Some "key");
     App.format_3f := print_float; App.str_float := print_float |}.

(** The index has a near document and [ollama] is not installed. *)
Definition no_ollama_world : App.world :=
  {| App.index := Inputs.built;
     App.ollama := fun _ => Raise (OSError "No such file or directory: 'ollama'");
     App.web := Inputs.timeout_then_two; App.secret := Return (Some "key");
     App.format_3f := print_float; App.str_float := print_float |}.

(** The index has a near document and [ollama] exits with status 1. *)
Definition failed_ollama_world : App.world :=
  {| App.index := Inputs.built; App.ollama := Inputs.failing_ollama;
     App.web := Inputs.timeout_then_two; App.secret := Return (Some "key");
     App.format_3f := print_float; App.str_float := print_float |}.

(** The nearest document is too far; the key in the secrets is empty. *)
Definition distant_world : App.world :=
  {| App.index := Inputs.distant; App.ollama := Inputs.padded_ollama;
     App.web := Inputs.timeout_then_two; App.secret := Return (Some "");
     App.format_3f := print_float; App.str_float := print_float |}.

(** The nearest document is too far and the secrets cannot be read. *)
Definition no_secrets_world : App.world :=
  {| App.index := Inputs.distant; App.ollama := Inputs.padded_ollama;
     App.web := Inputs.timeout_then_two;
     App.secret := Raise (OSError "No secrets found");
     App.format_3f := print_float; App.str_float := print_float |}.

(** The only document of the index has an empty content. *)
Definition blank_world : App.world :=
  {| App.index := blank_document; App.ollama := Inputs.padded_ollama;
     App.web := Inputs.timeout_then_two; App.secret := Return None;
     App.format_3f := print_float; App.str_float := print_float |}.

End Scenarios.

(** * Properties *)

(** ** Single precision: the rounding keeps the order *)

Module Float32Facts.
Import Float32.
Local Open Scope Z_scope.

Lemma round_mantissa_mono (k m1 m2 : Z) :
  0 < k -> 0 <= m1 <= m2 -> round_mantissa k m1 <= round_mantissa k m2.
Proof.
  intros Hk Hm. unfold round_mantissa.
  assert (Hp : 0 < 2 ^ (k - 1)) by (apply Z.pow_pos_nonneg; lia).
  assert (H2 : 2 ^ k = 2 * 2 ^ (k - 1)).
  { replace k with (Z.succ (k - 1)) at 1 by lia. apply Z.pow_succ_r. lia. }
  set (p := 2 ^ (k - 1)) in *. rewrite H2.
  pose proof (Z.div_mod m1 (2 * p) ltac:(lia)) as D1.
  pose proof (Z.div_mod m2 (2 * p) ltac:(lia)) as D2.
  pose proof (Z.mod_pos_bound m1 (2 * p) ltac:(lia)) as B1.
  pose proof (Z.mod_pos_bound m2 (2 * p) ltac:(lia)) as B2.
  pose proof (Z.div_le_mono m1 m2 (2 * p) ltac:(lia) ltac:(lia)) as Q.
  set (q1 := m1 / (2 * p)) in *. set (q2 := m2 / (2 * p)) in *.
  set (r1 := m1 mod (2 * p)) in *. set (r2 := m2 mod (2 * p)) in *.
  apply Z.mul_le_mono_nonneg_r; [lia|].
  assert (Q' : q1 = q2 \/ q1 + 1 <= q2) by lia.
  destruct Q' as [E | L].
  - assert (r1 <= r2) by nia. rewrite <- E.
    repeat match goal with
           | |- context [?a <? ?b] => destruct (Z.ltb_spec a b)
           end; destruct (Z.even q1); lia.
  - repeat match goal with
           | |- context [?a <? ?b] => destruct (Z.ltb_spec a b)
           end; destruct (Z.even q1); destruct (Z.even q2); lia.
Qed.

(** A mantissa of 53 bits rounds to one of 53 bits, or to [2 ^ 53], or,
    where a single bit is kept, to nothing. *)
Lemma round_mantissa_bounds (k m : Z) :
  29 <= k <= 53 -> 2 ^ 52 <= m < 2 ^ 53 ->
  (k <= 52 -> 2 ^ 52 <= round_mantissa k m) /\
  0 <= round_mantissa k m <= 2 ^ 53.
Proof.
  intros Hk Hm. unfold round_mantissa.
  assert (Hp : 0 < 2 ^ (k - 1)) by (apply Z.pow_pos_nonneg; lia).
  assert (H53 : 2 ^ 53 = 2 ^ (53 - k) * 2 ^ k).
  { rewrite <- Z.pow_add_r by lia. f_equal. lia. }
  assert (H52 : k <= 52 -> 2 ^ 52 = 2 ^ (52 - k) * 2 ^ k).
  { intros. rewrite <- Z.pow_add_r by lia. f_equal. lia. }
  assert (Hc : 0 < 2 ^ (53 - k)) by (apply Z.pow_pos_nonneg; lia).
  assert (HP : 0 < 2 ^ k) by (apply Z.pow_pos_nonneg; lia).
  set (P := 2 ^ k) in *.
  pose proof (Z.div_mod m P ltac:(lia)) as D.
  pose proof (Z.mod_pos_bound m P ltac:(lia)) as B.
  set (q := m / P) in *. set (r := m mod P) in *.
  assert (Hq : 0 <= q) by nia.
  assert (Hq53 : q + 1 <= 2 ^ (53 - k)).
  { set (c := 2 ^ (53 - k)) in *. nia. }
  set (q' := if r <? 2 ^ (k - 1) then q else if 2 ^ (k - 1) <? r then q + 1
             else if Z.even q then q else q + 1).
  assert (Hq' : q <= q' <= q + 1).
  { subst q'. repeat match goal with
           | |- context [?a <? ?b] => destruct (Z.ltb_spec a b)
           end; destruct (Z.even q); lia. }
  split; [intros Hk52|].
  - specialize (H52 Hk52).
    assert (Hc2 : 0 < 2 ^ (52 - k)) by (apply Z.pow_pos_nonneg; lia).
    set (c2 := 2 ^ (52 - k)) in *.
    assert (c2 <= q) by nia. nia.
  - set (c := 2 ^ (53 - k)) in *. nia.
Qed.

(** The order of [spec_float], on two finite floats of one sign, is the
    order of their magnitudes, reversed for the negative ones. *)
Lemma SFleb_finite (s : bool) (m1 : positive) (e1 : Z) (m2 : positive)
    (e2 : Z) :
  SFleb (S754_finite s m1 e1) (S754_finite s m2 e2)
  = if s then magnitude_leb (MFinite m2 e2) (MFinite m1 e1)
    else magnitude_leb (MFinite m1 e1) (MFinite m2 e2).
Proof.
  unfold SFleb, SFcompare, magnitude_leb.
  fold (Pos.compare m1 m2).
  destruct s; destruct (Z.compare_spec e1 e2) as [E | L | G];
    destruct (Pos.compare_spec m1 m2) as [E' | L' | G']; simpl;
    repeat match goal with
           | |- context [?a <? ?b] => destruct (Z.ltb_spec a b)
           | |- context [?a =? ?b] => destruct (Z.eqb_spec a b)
           | |- context [?a <=? ?b] => destruct (Z.leb_spec a b)
           end; simpl; try reflexivity; lia.
Qed.

Lemma SFleb_signed (s : bool) (g1 g2 : magnitude) :
  SFleb (signed s g1) (signed s g2)
  = if s then magnitude_leb g2 g1 else magnitude_leb g1 g2.
Proof.
  destruct g1 as [|m1 e1|], g2 as [|m2 e2|];
    try (destruct s; reflexivity).
  apply SFleb_finite.
Qed.

Lemma SFleb_signed_opposite (g1 g2 : magnitude) :
  SFleb (signed true g1) (signed false g2) = true.
Proof. destruct g1, g2; reflexivity. Qed.

Lemma round_magnitude_mono (m1 : positive) (e1 : Z) (m2 : positive)
    (e2 : Z) :
  magnitude_leb (MFinite m1 e1) (MFinite m2 e2) = true ->
  magnitude_leb (round_magnitude m1 e1) (round_magnitude m2 e2) = true.
Proof.
  intros H. simpl in H.
  assert (L : e1 < e2 \/ e1 = e2 /\ Zpos m1 <= Zpos m2).
  { apply orb_true_iff in H as [H | H]; [left; lia|right].
    apply andb_true_iff in H as [? ?]. lia. }
  clear H. unfold round_magnitude.
  destruct (Z.ltb_spec 75 e2) as [|H2];
    [destruct (if 75 <? e1 then _ else _); reflexivity|].
  destruct (Z.ltb_spec 75 e1) as [|H1]; [lia|].
  destruct (Z.ltb_spec e1 (-202)) as [|L1]; [reflexivity|].
  destruct (Z.ltb_spec e2 (-202)) as [|L2]; [lia|].
  set (c1 := Z.min (Z.max (Zpos m1) (2 ^ 52)) (2 ^ 53 - 1)).
  set (c2 := Z.min (Z.max (Zpos m2) (2 ^ 52)) (2 ^ 53 - 1)).
  set (k1 := Z.max 29 (-149 - e1)). set (k2 := Z.max 29 (-149 - e2)).
  assert (C1 : 2 ^ 52 <= c1 < 2 ^ 53) by (subst c1; lia).
  assert (C2 : 2 ^ 52 <= c2 < 2 ^ 53) by (subst c2; lia).
  assert (K1 : 29 <= k1 <= 53) by (subst k1; lia).
  assert (K2 : 29 <= k2 <= 53) by (subst k2; lia).
  destruct (round_mantissa_bounds k1 c1 K1 C1) as [A1 B1].
  destruct (round_mantissa_bounds k2 c2 K2 C2) as [A2 B2].
  assert (M : e1 = e2 -> Zpos m1 <= Zpos m2 ->
              round_mantissa k1 c1 <= round_mantissa k2 c2).
  { intros E Hm. subst k1 k2. rewrite E.
    apply round_mantissa_mono; subst c1 c2; lia. }
  assert (N : e1 < e2 -> 2 ^ 52 <= round_mantissa k2 c2).
  { intros. apply A2. subst k2. lia. }
  set (r1 := round_mantissa k1 c1) in *.
  set (r2 := round_mantissa k2 c2) in *.
  assert (P52 : Zpos (Z.to_pos (2 ^ 52)) = 2 ^ 52) by reflexivity.
  destruct (Z.eqb_spec r1 0) as [|Z1]; [reflexivity|].
  destruct (Z.eqb_spec r2 0) as [Z2|Z2]; [lia|].
  destruct (Z.ltb_spec r1 (2 ^ 53)) as [S1|S1];
    destruct (Z.ltb_spec r2 (2 ^ 53)) as [S2|S2];
    repeat match goal with
           | |- context [75 <? ?a] => destruct (Z.ltb_spec 75 a)
           end; try reflexivity; try lia; unfold magnitude_leb;
    rewrite ?P52, ?Z2Pos.id by lia;
    apply orb_true_iff; rewrite andb_true_iff, Z.ltb_lt, Z.eqb_eq, Z.leb_le;
    lia.
Qed.

(** Rounding to single precision keeps the order of floats. *)
Lemma to_float32_mono (x y : spec_float) :
  SFleb x y = true -> SFleb (to_float32 x) (to_float32 y) = true.
Proof.
  destruct x as [sx|sx| |sx mx ex], y as [sy|sy| |sy my ey];
    try (intros H; exact H); try discriminate.
  - destruct sy; [discriminate|]. intros _. simpl.
    destruct (round_magnitude my ey); reflexivity.
  - destruct sx; [|discriminate]. intros _. simpl.
    destruct (round_magnitude my ey), sy; reflexivity.
  - destruct sx; [|discriminate]. intros _. simpl.
    destruct (round_magnitude mx ex); reflexivity.
  - destruct sy; [destruct sx; discriminate|]. intros _. simpl.
    destruct (round_magnitude mx ex), sx; reflexivity.
  - destruct sx, sy; simpl to_float32.
    + rewrite SFleb_finite, SFleb_signed. apply round_magnitude_mono.
    + intros _. apply SFleb_signed_opposite.
    + discriminate.
    + rewrite SFleb_finite, SFleb_signed. apply round_magnitude_mono.
Qed.

(** On the constants of the source and of the examples, on ties, and at
    both ends of the range of single precision, [to_float32] is the
    rounding of the standard library. *)
Example to_float32_binary32_of :
  Forall (fun x => to_float32 x = binary32_of x) Inputs.floats.
Proof. repeat constructor. Qed.

(** And on the 4294 floats of the grid. *)
Example to_float32_binary32_of_grid :
  length Inputs.grid = 4294%nat /\
  forallb (fun x => bool_decide (to_float32 x = binary32_of x)) Inputs.grid
  = true.
Proof. split; vm_compute; reflexivity. Qed.

(** The float32 next to 0.6, 0.7 and 1.2. *)
Example to_float32_constants :
  to_float32 Inputs.c0_6 = Inputs.f0_6 /\
  to_float32 App.c0_7 = S754_finite false 6305039370944512 (-53) /\
  to_float32 App.c1_2 = Inputs.f1_2 /\
  to_float32 Inputs.below_1_2 = Inputs.f1_2 /\
  to_float32 Inputs.one = Inputs.one.
Proof. repeat split. Qed.

End Float32Facts.

(** ** Retrieval: the threshold policy *)

Module RetrievalFacts.
Import Retrieval Inputs.

(** The order of IEEE floats is transitive where it is defined: below a
    float that is strictly below [z] means strictly below [z].  With a NaN
    among the three, one of the hypotheses is false. *)
Lemma SFleb_SFltb_trans (x y z : spec_float) :
  SFleb x y = true -> SFltb y z = true -> SFltb x z = true.
Proof.
  unfold SFleb, SFltb.
  destruct x as [sx|sx| |sx mx ex], y as [sy|sy| |sy my ey],
           z as [sz|sz| |sz mz ez]; simpl;
    try discriminate;
    try (destruct sx; simpl; try discriminate);
    try (destruct sy; simpl; try discriminate);
    try (destruct sz; simpl; try discriminate);
    try reflexivity.
  all: change (Pos.compare_cont Eq mx my) with (Pos.compare mx my);
       change (Pos.compare_cont Eq my mz) with (Pos.compare my mz);
       change (Pos.compare_cont Eq mx mz) with (Pos.compare mx mz).
  all: destruct (Z.compare_spec ex ey), (Z.compare_spec ey ez),
         (Z.compare_spec ex ez); try lia; simpl; try discriminate;
       try reflexivity.
  all: destruct (Pos.compare_spec mx my), (Pos.compare_spec my mz),
         (Pos.compare_spec mx mz); try lia; simpl; try discriminate;
       try reflexivity.
Qed.

(** Raising the threshold keeps a distance that was not above it not above
    it. *)
Lemma gt_threshold_mono (d t1 t2 : spec_float) :
  SFleb t1 t2 = true -> gt d t1 = false -> gt d t2 = false.
Proof.
  unfold gt, Float32.gt. intros Hle Hd.
  destruct (SFltb (Float32.to_float32 t2) d) eqn:E; [|reflexivity].
  rewrite (SFleb_SFltb_trans _ _ d (Float32Facts.to_float32_mono t1 t2 Hle) E)
    in Hd.
  discriminate.
Qed.

(** With the model built, the index loaded and the search answered, the
    function is the case analysis of lines 48 to 54 on the candidates. *)
Lemma retrieve_loaded (st : store) (db : VectorIndex) (query : string)
    (top_k : nat) (score_threshold : spec_float)
    (results : list (string * spec_float)) :
  embeddings st = Return tt ->
  index_file st = Some (Return db) ->
  similarity_search_with_score db query top_k = Return results ->
  retrieve_context_with_score st query top_k score_threshold =
  match results with
  | [] => Return (None, zero)
  | (_, best) :: _ =>
      if gt best score_threshold then Return (None, best)
      else Return (Some (String.concat (nl +:+ nl) results.*1), best)
  end.
Proof.
  intros He Hi Hs. unfold retrieve_context_with_score.
  rewrite He, Hi. simpl. rewrite Hs. simpl.
  destruct results as [|[c d] rest]; reflexivity.
Qed.

(** C2, as the code has it.  When the persisted index exists (and loads,
    and answers the search): no candidate gives [Rejected] with distance 0;
    otherwise, with [best] the distance of the first candidate, a
    [float32], and the threshold rounded to single precision, the
    precision in which line 51 compares the two, [best] above the rounded
    threshold gives [Rejected best], and anything else gives [Accepted]
    with [best] and with the contents of all returned candidates, whatever
    their own distances, joined by a blank line. *)
Theorem retrieve_outcome (st : store) (db : VectorIndex) (query : string)
    (top_k : nat) (score_threshold : spec_float)
    (results : list (string * spec_float)) :
  embeddings st = Return tt ->
  index_file st = Some (Return db) ->
  similarity_search_with_score db query top_k = Return results ->
  (results = [] ->
   outcome <$> retrieve_context_with_score st query top_k score_threshold
   = Return (Rejected zero)) /\
  (forall c best rest, results = (c, best) :: rest ->
   SFltb (Float32.to_float32 score_threshold) best = true ->
   outcome <$> retrieve_context_with_score st query top_k score_threshold
   = Return (Rejected best)) /\
  (forall c best rest, results = (c, best) :: rest ->
   SFltb (Float32.to_float32 score_threshold) best = false ->
   outcome <$> retrieve_context_with_score st query top_k score_threshold
   = Return (Accepted (String.concat (nl +:+ nl) (c :: rest.*1)) best)).
Proof.
  intros He Hi Hs.
  rewrite (retrieve_loaded st db query top_k score_threshold results He Hi Hs).
  unfold gt, Float32.gt. repeat split.
  - intros ->. reflexivity.
  - intros c best rest -> Hgt. rewrite Hgt. reflexivity.
  - intros c best rest -> Hgt. rewrite Hgt. reflexivity.
Qed.

Lemma retrieve_outcome_witness :
  outcome <$> retrieve_context_with_score built "aphids" 3 one
  = Return (Accepted ("near" +:+ nl +:+ nl +:+ "far") half).
Proof.
  apply (proj2 (proj2 (retrieve_outcome built two_docs "aphids" 3 one
           [("near", half); ("far", two)] eq_refl eq_refl eq_refl))
           "near" half [("far", two)] eq_refl eq_refl).
Defined.

(** C2, as the specification has it, fails: a best distance above the
    threshold is not always rejected.  The [float32] next to 0.6,
    0.60000002384185791015625, is above the Python float 0.6, and it is
    what 0.6 is rounded to for the comparison: the candidate at that
    distance is accepted at the threshold 0.6. *)
Lemma distance_above_threshold_accepted :
  ~ (forall (st : store) (db : VectorIndex) (query : string) (top_k : nat)
            (score_threshold : spec_float) (c : string) (best : spec_float)
            (rest : list (string * spec_float)),
       embeddings st = Return tt ->
       index_file st = Some (Return db) ->
       similarity_search_with_score db query top_k
       = Return ((c, best) :: rest) ->
       SFltb score_threshold best = true ->
       outcome <$> retrieve_context_with_score st query top_k score_threshold
       = Return (Rejected best)).
Proof.
  intros H.
  specialize (H at_0_6 _ "aphids" 3 c0_6 "c" f0_6 [] eq_refl eq_refl eq_refl
                eq_refl).
  discriminate H.
Qed.

(** The outcome at that distance and threshold. *)
Example accepted_at_0_6 :
  SFltb c0_6 f0_6 = true /\
  Float32.to_float32 c0_6 = f0_6 /\
  outcome <$> retrieve_context_with_score at_0_6 "aphids" 3 c0_6
  = Return (Accepted "c" f0_6).
Proof. repeat split. Qed.

(** C9.  For one query and one index, an outcome accepted at a threshold is
    the same accepted outcome at every threshold above it; and a raised
    threshold does turn some rejected outcome into an accepted one, with the
    same best distance.  The order on thresholds is that of IEEE floats, so
    a NaN is above and below nothing. *)
Theorem threshold_monotone :
  (forall (st : store) (query : string) (top_k : nat) (t1 t2 : spec_float)
          (c : string) (d : spec_float),
     SFleb t1 t2 = true ->
     outcome <$> retrieve_context_with_score st query top_k t1
     = Return (Accepted c d) ->
     outcome <$> retrieve_context_with_score st query top_k t2
     = Return (Accepted c d)) /\
  (exists (st : store) (query : string) (top_k : nat) (t1 t2 : spec_float)
          (c : string) (d : spec_float),
     SFleb t1 t2 = true /\
     outcome <$> retrieve_context_with_score st query top_k t1
     = Return (Rejected d) /\
     outcome <$> retrieve_context_with_score st query top_k t2
     = Return (Accepted c d)).
Proof.
  split.
  - intros st query top_k t1 t2 c d Hle. unfold retrieve_context_with_score.
    destruct (embeddings st) as [[]|e]; simpl; [|discriminate].
    destruct (index_file st) as [[db|e]|]; simpl; try discriminate.
    destruct (similarity_search_with_score db query top_k)
      as [[|[c0 best] rest]|e]; simpl; try discriminate.
    destruct (gt best t1) eqn:H1; simpl; [discriminate|].
    intros H. rewrite (gt_threshold_mono best t1 t2 Hle H1). exact H.
  - exists distant, "aphids"%string, 3, one, two, "d"%string, one_and_half.
    repeat split.
Qed.

Lemma threshold_monotone_witness :
  outcome <$> retrieve_context_with_score built "aphids" 3 two
  = Return (Accepted ("near" +:+ nl +:+ nl +:+ "far") half).
Proof.
  apply (proj1 threshold_monotone built "aphids" 3 one two); reflexivity.
Defined.

(** The example of the specification: a nearest distance of 1.5 is
    rejected at the threshold 1.0 and accepted at the threshold 2.0. *)
Example rejected_then_accepted :
  outcome <$> retrieve_context_with_score distant "q" 3 one
  = Return (Rejected one_and_half) /\
  outcome <$> retrieve_context_with_score distant "q" 3 two
  = Return (Accepted "d" one_and_half).
Proof. split; reflexivity. Qed.

(** C3, as the code has it.  Without the index file, the function raises
    nothing of its own: it returns the pair [(None, 0)], the value it also
    returns for an index without candidates; only a failure to build the
    embedding model, which comes first, propagates. *)
Theorem retrieve_without_index (st : store) (query : string) (top_k : nat)
    (score_threshold : spec_float) :
  index_file st = None ->
  retrieve_context_with_score st query top_k score_threshold =
  match embeddings st with
  | Return _ => Return (None, zero)
  | Raise e => Raise e
  end.
Proof.
  intros Hi. unfold retrieve_context_with_score. rewrite Hi.
  destruct (embeddings st); reflexivity.
Qed.

Lemma retrieve_without_index_witness :
  retrieve_context_with_score unbuilt "aphids" 3 one = Return (None, zero).
Proof.
  apply (retrieve_without_index unbuilt "aphids" 3 one). reflexivity.
Defined.

(** C3, as the specification has it, fails: with the index file absent the
    retrieval does not fail at all. *)
Lemma absent_index_does_not_fail :
  ~ (exists e : exn,
       retrieve_context_with_score unbuilt "aphids" 3 one = Raise e).
Proof. intros [e H]. discriminate H. Qed.

End RetrievalFacts.

(** ** [strip]: what is removed and what is left *)

Module StripFacts.
Import Strip.
Local Open Scope list_scope.

Section tokens.
Variable w1 : ascii -> bool.
Variable w2 : ascii -> ascii -> bool.
Variable w3 : ascii -> ascii -> ascii -> bool.

(** What [lstrip_with] removes is a run of the characters. *)
Lemma lstrip_with_split (s : list ascii) :
  exists pre, s = pre ++ lstrip_with w1 w2 w3 s /\ blank_with w1 w2 w3 pre.
Proof.
  induction s as [s IH] using (induction_ltof1 _ (@length ascii)).
  unfold ltof in IH.
  destruct s as [|a [|b [|c s3]]]; simpl.
  - exists []. split; [reflexivity|constructor].
  - destruct (w1 a) eqn:E1.
    + exists [a]. split; [reflexivity|]. constructor; [exact E1|constructor].
    + exists []. split; [reflexivity|constructor].
  - destruct (w1 a) eqn:E1.
    + destruct (IH [b]) as [pre [Hs Hb]]; [simpl; lia|].
      exists (a :: pre). split; [simpl in *; congruence|].
      constructor; assumption.
    + destruct (w2 a b) eqn:E2.
      * exists [a; b]. split; [reflexivity|].
        apply blank_two; [exact E2|constructor].
      * exists []. split; [reflexivity|constructor].
  - destruct (w1 a) eqn:E1.
    + destruct (IH (b :: c :: s3)) as [pre [Hs Hb]]; [simpl; lia|].
      exists (a :: pre). split; [simpl in *; congruence|].
      constructor; assumption.
    + destruct (w2 a b) eqn:E2.
      * destruct (IH (c :: s3)) as [pre [Hs Hb]]; [simpl; lia|].
        exists (a :: b :: pre). split; [simpl in *; congruence|].
        apply blank_two; assumption.
      * destruct (w3 a b c) eqn:E3.
        -- destruct (IH s3) as [pre [Hs Hb]]; [simpl; lia|].
           exists (a :: b :: c :: pre). split; [simpl in *; congruence|].
           apply blank_three; assumption.
        -- exists []. split; [reflexivity|constructor].
Qed.

(** What [lstrip_with] leaves does not begin with one of the characters. *)
Lemma lstrip_with_clean (s : list ascii) : starts_with_token w1 w2 w3 (lstrip_with w1 w2 w3 s) = false.
Proof.
  induction s as [s IH] using (induction_ltof1 _ (@length ascii)).
  unfold ltof in IH.
  destruct s as [|a [|b [|c s3]]]; simpl.
  - reflexivity.
  - destruct (w1 a) eqn:E1; simpl; [reflexivity|]. rewrite E1. reflexivity.
  - destruct (w1 a) eqn:E1.
    + apply (IH [b]). simpl; lia.
    + destruct (w2 a b) eqn:E2; simpl; [reflexivity|].
      rewrite E1, E2. reflexivity.
  - destruct (w1 a) eqn:E1.
    + apply (IH (b :: c :: s3)). simpl; lia.
    + destruct (w2 a b) eqn:E2.
      * apply (IH (c :: s3)). simpl; lia.
      * destruct (w3 a b c) eqn:E3.
        -- apply (IH s3). simpl; lia.
        -- simpl. rewrite E1, E2, E3. reflexivity.
Qed.

Lemma starts_with_token_app (s t : list ascii) :
  starts_with_token w1 w2 w3 s = true ->
  starts_with_token w1 w2 w3 (s ++ t) = true.
Proof.
  destruct s as [|a [|b [|c s3]]]; simpl; try discriminate.
  - rewrite orb_false_r. intros ->. reflexivity.
  - rewrite orb_false_r. intros H.
    destruct (w1 a); [reflexivity|]. simpl in *.
    rewrite H. reflexivity.
  - intros H. exact H.
Qed.

Lemma blank_with_app (s t : list ascii) :
  blank_with w1 w2 w3 s -> blank_with w1 w2 w3 t ->
  blank_with w1 w2 w3 (s ++ t).
Proof.
  intros Hs Ht. induction Hs; simpl; [assumption| | |].
  - apply blank_one; assumption.
  - apply blank_two; assumption.
  - apply blank_three; assumption.
Qed.

End tokens.

(** A run of the characters read backwards is a run of the characters. *)
Lemma blank_with_rev (s : list ascii) :
  blank_with space1 (fun b a => space2 a b) (fun c b a => space3 a b c) s ->
  blank (rev s).
Proof.
  unfold blank. induction 1; simpl.
  - constructor.
  - apply blank_with_app; [assumption|].
    apply blank_one; [assumption|constructor].
  - rewrite <- app_assoc. apply blank_with_app; [assumption|].
    apply (blank_two _ _ _ b a []); [assumption|constructor].
  - rewrite <- !app_assoc. apply blank_with_app; [assumption|].
    apply (blank_three _ _ _ c b a []); [assumption|constructor].
Qed.

Lemma rstrip_bytes_split (s : list ascii) :
  exists post, s = rstrip_bytes s ++ post /\ blank post.
Proof.
  destruct (lstrip_with_split space1 (fun b a => space2 a b)
              (fun c b a => space3 a b c) (rev s)) as [pre [Hs Hb]].
  exists (rev pre). split.
  - unfold rstrip_bytes. rewrite <- rev_app_distr, <- Hs.
    symmetry. apply rev_involutive.
  - apply blank_with_rev. exact Hb.
Qed.

(** [strip] removes a run of whitespace at each end and nothing else. *)
Lemma strip_split (s : string) :
  exists pre post,
    list_ascii_of_string s = pre ++ list_ascii_of_string (strip s) ++ post
    /\ blank pre /\ blank post.
Proof.
  destruct (lstrip_with_split space1 space2 space3 (list_ascii_of_string s))
    as [pre [Hs Hpre]].
  destruct (rstrip_bytes_split (lstrip_bytes (list_ascii_of_string s)))
    as [post [Ht Hpost]].
  exists pre, post. unfold strip.
  rewrite list_ascii_of_string_of_list_ascii.
  split; [|split; assumption].
  rewrite <- Ht. exact Hs.
Qed.

(** What [strip] returns neither begins nor ends with whitespace. *)
Lemma strip_clean (s : string) :
  starts_blank (list_ascii_of_string (strip s)) = false /\
  ends_blank (list_ascii_of_string (strip s)) = false.
Proof.
  unfold strip. rewrite list_ascii_of_string_of_list_ascii.
  set (t := lstrip_bytes (list_ascii_of_string s)). split.
  - destruct (rstrip_bytes_split t) as [post [Ht _]].
    destruct (starts_blank (rstrip_bytes t)) eqn:E; [|reflexivity].
    pose proof (starts_with_token_app space1 space2 space3 _ post E) as H.
    rewrite <- Ht in H. unfold t, lstrip_bytes in H.
    rewrite lstrip_with_clean in H. discriminate.
  - unfold ends_blank, rstrip_bytes. rewrite rev_involutive.
    apply lstrip_with_clean.
Qed.

Example strip_example :
  strip (nl +:+ " Spray neem oil. " +:+ nl) = "Spray neem oil.".
Proof. reflexivity. Qed.

End StripFacts.

(** ** The answer synthesizer *)

Module SynthesizerFacts.
Import Strip Synthesizer Inputs.
Local Open Scope list_scope.

(** X23.  [ask_gemma] looks at no exit status: once the [ollama] process
    has run, whatever its [returncode], the result is its standard output
    without the whitespace at both ends; the function fails only when the
    process cannot be started, and then with the exception of
    [subprocess.run] itself. *)
Theorem ask_gemma_result (run : subprocess) (query context : string) :
  (forall rc out err,
     run ["ollama"; "run"; "gemma:2b"; prompt_of query context]
     = Return {| returncode := rc; stdout := out; stderr := err |} ->
     ask_gemma run query context = Return (strip out) /\
     (exists pre post,
        list_ascii_of_string out
        = pre ++ list_ascii_of_string (strip out) ++ post
        /\ blank pre /\ blank post) /\
     starts_blank (list_ascii_of_string (strip out)) = false /\
     ends_blank (list_ascii_of_string (strip out)) = false) /\
  (forall e,
     run ["ollama"; "run"; "gemma:2b"; prompt_of query context] = Raise e ->
     ask_gemma run query context = Raise e).
Proof.
  split.
  - intros rc out err H. unfold ask_gemma. rewrite H. simpl.
    split; [reflexivity|]. split; [apply StripFacts.strip_split|].
    apply StripFacts.strip_clean.
  - intros e H. unfold ask_gemma. rewrite H. reflexivity.
Qed.

Lemma ask_gemma_result_witness :
  ask_gemma padded_ollama "How to control aphids?" "Query: aphids"
  = Return "Spray neem oil.".
Proof.
  apply (proj1 (ask_gemma_result padded_ollama "How to control aphids?"
                  "Query: aphids") 0%Z (nl +:+ " Spray neem oil. " +:+ nl) "").
  reflexivity.
Defined.

(** C4.  The specification has the synthesizer fail when the runtime exits
    with a status that is not success.  [subprocess.run] is called without
    [check] and [ask_gemma] does not read [returncode]: at an [ollama]
    that starts and exits with status 1, its message on the standard error
    and nothing on the standard output, the function fails with nothing
    and returns the empty text as the answer. *)
Theorem nonzero_status_returns_empty :
  ask_gemma failing_ollama "How to control aphids?" "Query: aphids"
  = Return "" /\
  ~ (exists e : exn,
       ask_gemma failing_ollama "How to control aphids?" "Query: aphids"
       = Raise e).
Proof. split; [reflexivity|]. intros [e H]. discriminate H. Qed.

End SynthesizerFacts.

(** ** The document normalizer *)

Module NormalizerFacts.
Import Normalizer Inputs.
Local Open Scope list_scope.

Lemma has_columns_elem (t : csv_table) (c : string) :
  has_columns t = true -> c ∈ read_columns -> c ∈ header t.
Proof.
  unfold has_columns. rewrite forallb_forall. intros H Hc.
  apply list_elem_of_In, H in Hc. apply bool_decide_eq_true in Hc. exact Hc.
Qed.

Lemma getitem_column (cols : list string) (r : gmap string string) (c : string) :
  c ∈ cols -> getitem {| labels := cols; cells := r |} c = Return (r !! c).
Proof.
  intros Hc. unfold getitem. simpl.
  rewrite bool_decide_eq_true_2 by exact Hc. reflexivity.
Qed.

Lemma getitem_no_column (cols : list string) (r : gmap string string) (c : string) :
  c ∉ cols ->
  getitem {| labels := cols; cells := r |} c = Raise (KeyError (repr_str c)).
Proof.
  intros Hc. unfold getitem. simpl.
  rewrite bool_decide_eq_false_2 by exact Hc. reflexivity.
Qed.

(** With the five columns in the frame, the f-string is the template, a
    missing cell printed as [nan]. *)
Lemma text_of_row_template (cols : list string) (r : gmap string string) :
  (forall c, c ∈ read_columns -> c ∈ cols) ->
  text_of_row {| labels := cols; cells := r |}
  = Return (content (document_of 0 r)).
Proof.
  intros H. unfold text_of_row, read_columns in *.
  rewrite !getitem_column by (apply H; set_solver).
  reflexivity.
Qed.

(** Under the row numbers, the labelled documents are those of the
    specification. *)
Lemma normalize_labelled_Position (rs : list (gmap string string)) (i : nat) :
  normalize_labelled Position i rs = normalize_from i rs.
Proof.
  revert i. induction rs as [|r rest IH]; intros i; simpl; [reflexivity|].
  rewrite IH. reflexivity.
Qed.

(** The loop over the rows that [dropna] leaves makes the documents of
    [normalize_labelled]. *)
Lemma for_rows_normalize (cols : list string) (lab : nat -> index_label) :
  (forall c, c ∈ read_columns -> c ∈ cols) ->
  forall (rs : list (gmap string string)) (i : nat) (docs : list Document),
    for_rows
      (iterrows
         {| columns := cols;
            rows := List.filter
                      (fun ir => forallb (notna ir.2) ["QueryText"; "KccAns"])
                      (imap (fun j r => (lab (i + j), r)) rs) |})
      docs
    = Return (docs ++ normalize_labelled lab i rs).
Proof.
  intros H rs. induction rs as [|r rest IH]; intros i docs.
  - simpl. rewrite app_nil_r. reflexivity.
  - unfold iterrows in *. simpl in *.
    rewrite (imap_ext _ (fun j r => (lab (S i + j), r)) rest)
      by (intros; simpl; do 2 f_equal; lia).
    unfold retained. rewrite !andb_true_r.
    destruct (notna r "QueryText" && notna r "KccAns") eqn:E; simpl.
    + rewrite (text_of_row_template cols r H). simpl.
      etrans; [exact (IH (S i) _)|].
      rewrite <- app_assoc, Nat.add_0_r. reflexivity.
    + exact (IH (S i) docs).
Qed.

(** With the five columns, the function makes the labelled documents of
    the records. *)
Lemma preprocess_kcc_labelled (t : csv_table) :
  has_columns t = true ->
  preprocess_kcc t = Return (normalize_labelled (row_label t) 0 (records t)).
Proof.
  intros H. unfold preprocess_kcc, dropna, read_csv. simpl.
  rewrite !bool_decide_eq_true_2
    by (apply (has_columns_elem t _ H); unfold read_columns; set_solver).
  simpl.
  apply (for_rows_normalize (header t) (row_label t)
           (fun c => has_columns_elem t c H) (records t) 0 []).
Qed.

(** Without an index column, it computes the specification's
    [normalize_from 0]. *)
Lemma preprocess_kcc_normalize (t : csv_table) :
  has_columns t = true ->
  index_col t = None ->
  preprocess_kcc t = Return (normalize_from 0 (records t)).
Proof.
  intros H Hi. rewrite (preprocess_kcc_labelled t H).
  rewrite <- normalize_labelled_Position. unfold row_label. rewrite Hi.
  reflexivity.
Qed.

(** The documents of [normalize_from] that carry the number [k]. *)
Lemma normalize_from_numbered (rs : list (gmap string string)) (i k : nat) :
  List.filter (fun d => bool_decide (id d = pretty k)) (normalize_from i rs) =
  if decide (i <= k) then
    match rs !! (k - i) with
    | Some r => if retained r then [document_of k r] else []
    | None => []
    end
  else [].
Proof.
  revert i. induction rs as [|r rest IH]; intros i; simpl.
  - destruct (decide (i <= k)); reflexivity.
  - assert (Hrest :
      List.filter (fun d => bool_decide (id d = pretty k))
                  (normalize_from (S i) rest) =
      if decide (i < k) then
        match rest !! (k - S i) with
        | Some r => if retained r then [document_of k r] else []
        | None => []
        end
      else []).
    { rewrite IH. destruct (decide (S i <= k)), (decide (i < k));
        try lia; reflexivity. }
    destruct (decide (i <= k)) as [Hle|Hgt].
    + destruct (decide (i = k)) as [->|Hne].
      * rewrite Nat.sub_diag. simpl.
        destruct (retained r); simpl;
          rewrite ?bool_decide_eq_true_2 by reflexivity;
          rewrite Hrest; destruct (decide (k < k)); try lia; reflexivity.
      * replace (k - i) with (S (k - S i)) by lia. simpl.
        destruct (retained r); simpl; [|rewrite Hrest].
        -- rewrite bool_decide_eq_false_2
             by (intros E; apply (inj pretty) in E; lia).
           rewrite Hrest. destruct (decide (i < k)); [reflexivity|lia].
        -- destruct (decide (i < k)); [reflexivity|lia].
    + destruct (retained r); simpl; [|rewrite Hrest].
      * rewrite bool_decide_eq_false_2
          by (intros E; apply (inj pretty) in E; lia).
        rewrite Hrest. destruct (decide (i < k)); [lia|reflexivity].
      * destruct (decide (i < k)); [lia|reflexivity].
Qed.

(** Every document of [normalize_from] comes from a kept record. *)
Lemma normalize_from_elem (rs : list (gmap string string)) (i : nat)
    (d : Document) :
  d ∈ normalize_from i rs ->
  exists j r, rs !! j = Some r /\ retained r = true /\ d = document_of (i + j) r.
Proof.
  revert i. induction rs as [|r rest IH]; intros i; simpl.
  - intros H. inversion H.
  - intros H.
    assert (Hrest : d ∈ normalize_from (S i) rest ->
      exists j r0, (r :: rest) !! j = Some r0 /\ retained r0 = true
                   /\ d = document_of (i + j) r0).
    { intros Hd. destruct (IH _ Hd) as [j [r0 [Hj [Hr Hd']]]].
      exists (S j), r0. simpl. rewrite Nat.add_succ_r. auto. }
    destruct (retained r) eqn:E; [|auto].
    apply elem_of_cons in H as [->|H]; [|auto].
    exists 0, r. rewrite Nat.add_0_r. auto.
Qed.

Lemma normalize_from_length (rs : list (gmap string string)) (i : nat) :
  length (normalize_from i rs) = length (List.filter retained rs).
Proof.
  revert i. induction rs as [|r rest IH]; intros i; simpl; [reflexivity|].
  destruct (retained r); simpl; rewrite IH; reflexivity.
Qed.

(** A record is kept exactly when both texts are there. *)
Lemma retained_true (r : gmap string string) :
  retained r = true <->
  exists query answer, r !! "QueryText" = Some query /\ r !! "KccAns" = Some answer.
Proof.
  unfold retained, notna. rewrite andb_true_iff, !bool_decide_eq_true.
  split.
  - intros [[q Hq] [a Ha]]. eauto.
  - intros [q [a [Hq Ha]]]. split; eauto.
Qed.

Lemma retained_false (r : gmap string string) :
  retained r = false <-> r !! "QueryText" = None \/ r !! "KccAns" = None.
Proof.
  unfold retained, notna. rewrite andb_false_iff, !bool_decide_eq_false.
  rewrite <- !eq_None_not_Some. reflexivity.
Qed.

(** The document of the kept record at place [j], under its label, is
    among the documents. *)
Lemma normalize_labelled_lookup (lab : nat -> index_label)
    (rs : list (gmap string string)) (i j : nat) (r : gmap string string) :
  rs !! j = Some r -> retained r = true ->
  labelled_document (lab (i + j)) r ∈ normalize_labelled lab i rs.
Proof.
  revert i j. induction rs as [|r0 rest IH]; intros i j Hj Hr;
    [discriminate|].
  destruct j as [|j]; simpl in *.
  - injection Hj as ->. rewrite Hr, Nat.add_0_r. apply list_elem_of_here.
  - replace (i + S j) with (S i + j) by lia.
    destruct (retained r0); [apply list_elem_of_further|];
      apply IH; assumption.
Qed.

(** Every labelled document comes from a kept record, under its label. *)
Lemma normalize_labelled_elem (lab : nat -> index_label)
    (rs : list (gmap string string)) (i : nat) (d : Document) :
  d ∈ normalize_labelled lab i rs ->
  exists j r, rs !! j = Some r /\ retained r = true /\
              d = labelled_document (lab (i + j)) r.
Proof.
  revert i. induction rs as [|r rest IH]; intros i; simpl.
  - intros H. inversion H.
  - intros H.
    assert (Hrest : d ∈ normalize_labelled lab (S i) rest ->
      exists j r0, (r :: rest) !! j = Some r0 /\ retained r0 = true
                   /\ d = labelled_document (lab (i + j)) r0).
    { intros Hd. destruct (IH _ Hd) as [j [r0 [Hj [Hr Hd']]]].
      exists (S j), r0. simpl. rewrite Nat.add_succ_r. auto. }
    destruct (retained r) eqn:E; [|auto].
    apply elem_of_cons in H as [->|H]; [|auto].
    exists 0, r. rewrite Nat.add_0_r. auto.
Qed.

Lemma normalize_labelled_length (lab : nat -> index_label)
    (rs : list (gmap string string)) (i : nat) :
  length (normalize_labelled lab i rs) = length (List.filter retained rs).
Proof.
  revert i. induction rs as [|r rest IH]; intros i; simpl; [reflexivity|].
  destruct (retained r); simpl; rewrite IH; reflexivity.
Qed.

(** [dropna] on a frame that has both text columns. *)
Lemma dropna_texts (df : DataFrame) :
  "QueryText"%string ∈ columns df -> "KccAns"%string ∈ columns df ->
  dropna ["QueryText"; "KccAns"]%string df =
  Return {| columns := columns df;
            rows := List.filter (fun ir => retained ir.2) (rows df) |}.
Proof.
  intros Hq Ha. unfold dropna. simpl List.filter.
  rewrite !bool_decide_eq_true_2 by assumption. simpl.
  do 2 f_equal. apply filter_ext. intros [i r]. unfold retained. simpl.
  rewrite andb_true_r. reflexivity.
Qed.

(** The rows that [dropna] leaves, when there is none and when there is
    one. *)
Lemma kept_rows_none (lab : nat -> index_label)
    (rs : list (gmap string string)) (i : nat) :
  existsb retained rs = false ->
  List.filter (fun ir : index_label * gmap string string => retained ir.2)
              (imap (fun j r => (lab (i + j), r)) rs) = [].
Proof.
  revert i. induction rs as [|r rest IH]; intros i; [reflexivity|].
  simpl. intros H. apply orb_false_iff in H as [Hr Hrest]. rewrite Hr.
  rewrite (imap_ext _ (fun j r => (lab (S i + j), r)) rest)
    by (intros; simpl; do 2 f_equal; lia).
  apply IH, Hrest.
Qed.

Lemma kept_rows_some (lab : nat -> index_label)
    (rs : list (gmap string string)) (i : nat) :
  existsb retained rs = true ->
  exists ir rest,
    List.filter (fun ir : index_label * gmap string string => retained ir.2)
                (imap (fun j r => (lab (i + j), r)) rs) = ir :: rest.
Proof.
  revert i. induction rs as [|r rest IH]; intros i; [discriminate|].
  simpl. destruct (retained r) eqn:Hr; [eauto|]. simpl. intros H.
  rewrite (imap_ext _ (fun j r => (lab (S i + j), r)) rest)
    by (intros; simpl; do 2 f_equal; lia).
  apply IH, H.
Qed.

(** With both text columns and a metadata column missing, the f-string
    raises for the first missing of the three, whatever the row. *)
Lemma text_of_row_missing (cols : list string) (r : gmap string string)
    (c : string) :
  "QueryText"%string ∈ cols -> "KccAns"%string ∈ cols ->
  List.find (fun c => negb (bool_decide (c ∈ cols)))
            ["StateName"; "DistrictName"; "Crop"]%string = Some c ->
  text_of_row {| labels := cols; cells := r |} = Raise (KeyError (repr_str c)).
Proof.
  intros Hq Ha Hc. unfold text_of_row.
  rewrite (getitem_column cols r "QueryText" Hq).
  rewrite (getitem_column cols r "KccAns" Ha).
  simpl in *. unfold getitem. simpl labels.
  destruct (bool_decide ("StateName"%string ∈ cols)); simpl in *;
    [|injection Hc as <-; reflexivity].
  destruct (bool_decide ("DistrictName"%string ∈ cols)); simpl in *;
    [|injection Hc as <-; reflexivity].
  destruct (bool_decide ("Crop"%string ∈ cols)); simpl in *;
    [discriminate|injection Hc as <-; reflexivity].
Qed.

(** With both text columns, a metadata column missing and a record kept,
    the function raises for that column. *)
Lemma preprocess_kcc_missing (t : csv_table) (c : string) :
  "QueryText"%string ∈ header t -> "KccAns"%string ∈ header t ->
  List.find (fun c => negb (bool_decide (c ∈ header t)))
            ["StateName"; "DistrictName"; "Crop"]%string = Some c ->
  existsb retained (records t) = true ->
  preprocess_kcc t = Raise (KeyError (repr_str c)).
Proof.
  intros Hq Ha Hc E. unfold preprocess_kcc.
  rewrite (dropna_texts (read_csv t) Hq Ha). simpl.
  unfold read_csv, iterrows. simpl columns. simpl rows.
  destruct (kept_rows_some (row_label t) (records t) 0 E)
    as [[i r] [rest Hk]].
  change (fun j r => (row_label t (0 + j), r))
    with (fun (j : nat) (r : gmap string string) => (row_label t j, r)) in Hk.
  rewrite Hk. simpl.
  rewrite (text_of_row_missing (header t) r c Hq Ha Hc). reflexivity.
Qed.

(** C7, as the code has it.  For a file that has the five columns the
    function reads: a record whose query text or answer text is missing
    gives no document and a record with both gives one, the documents
    being as many as the kept records, each made from a kept record and
    carrying as id the text of the index label of that record.  When the
    records are as long as the header, so that pandas numbers them, the id
    is the decimal text of the record's place in the file, counted from
    zero before any record is dropped: the place of a dropped record is no
    id, and the place of a kept record is the id of exactly one document.
    For a file that has the two text columns and lacks one of the
    three others, a kept record makes the function raise [KeyError]. *)
Theorem preprocess_kcc_documents (t : csv_table) :
  (has_columns t = true ->
   exists docs, preprocess_kcc t = Return docs /\
     length docs = length (List.filter retained (records t)) /\
     (forall i r, records t !! i = Some r -> retained r = true ->
        labelled_document (row_label t i) r ∈ docs) /\
     (forall d, d ∈ docs ->
        exists i r, records t !! i = Some r /\ retained r = true /\
                    d = labelled_document (row_label t i) r) /\
     (index_col t = None ->
      (forall i r, records t !! i = Some r ->
         r !! "QueryText" = None \/ r !! "KccAns" = None ->
         forall d, d ∈ docs -> id d <> pretty i) /\
      (forall i r query answer, records t !! i = Some r ->
         r !! "QueryText" = Some query -> r !! "KccAns" = Some answer ->
         List.filter (fun d => bool_decide (id d = pretty i)) docs
         = [document_of i r]) /\
      (forall d, d ∈ docs ->
         exists i r, records t !! i = Some r /\ retained r = true /\
                     d = document_of i r))) /\
  (forall c,
     "QueryText"%string ∈ header t -> "KccAns"%string ∈ header t ->
     List.find (fun c => negb (bool_decide (c ∈ header t)))
               ["StateName"; "DistrictName"; "Crop"]%string = Some c ->
     existsb retained (records t) = true ->
     preprocess_kcc t = Raise (KeyError (repr_str c))).
Proof.
  split; [|intros c; apply preprocess_kcc_missing].
  intros H. exists (normalize_labelled (row_label t) 0 (records t)).
  split; [apply preprocess_kcc_labelled, H|].
  split; [apply normalize_labelled_length|].
  split; [|split].
  - intros i r Hi Hr.
    apply (normalize_labelled_lookup (row_label t) (records t) 0 i r Hi Hr).
  - intros d Hd. apply normalize_labelled_elem in Hd. exact Hd.
  - intros Hix.
    assert (E : normalize_labelled (row_label t) 0 (records t)
                = normalize_from 0 (records t)).
    { rewrite <- normalize_labelled_Position. unfold row_label.
      rewrite Hix. reflexivity. }
    rewrite E. split; [|split].
    + intros i r Hi Hr d Hd Hid. apply retained_false in Hr.
      pose proof (normalize_from_numbered (records t) 0 i) as Hn.
      rewrite Nat.sub_0_r, Hi, Hr in Hn.
      destruct (decide (0 <= i)); [|lia].
      assert (Hin : In d (List.filter (fun d => bool_decide (id d = pretty i))
                            (normalize_from 0 (records t)))).
      { apply filter_In. split; [apply list_elem_of_In, Hd|].
        apply bool_decide_eq_true_2, Hid. }
      rewrite Hn in Hin. destruct Hin.
    + intros i r q a Hi Hq Ha.
      assert (Hr : retained r = true) by (apply retained_true; eauto).
      rewrite (normalize_from_numbered (records t) 0 i).
      rewrite Nat.sub_0_r, Hi, Hr.
      destruct (decide (0 <= i)); [reflexivity|lia].
    + intros d Hd. apply normalize_from_elem in Hd. exact Hd.
Qed.

Lemma preprocess_kcc_documents_witness :
  exists docs, preprocess_kcc four_records = Return docs /\
    length docs = length (List.filter retained (records four_records)) /\
    (forall i r, records four_records !! i = Some r -> retained r = true ->
       labelled_document (row_label four_records i) r ∈ docs) /\
    (forall d, d ∈ docs ->
       exists i r, records four_records !! i = Some r /\ retained r = true /\
                   d = labelled_document (row_label four_records i) r) /\
    (index_col four_records = None ->
     (forall i r, records four_records !! i = Some r ->
        r !! "QueryText" = None \/ r !! "KccAns" = None ->
        forall d, d ∈ docs -> id d <> pretty i) /\
     (forall i r query answer, records four_records !! i = Some r ->
        r !! "QueryText" = Some query -> r !! "KccAns" = Some answer ->
        List.filter (fun d => bool_decide (id d = pretty i)) docs
        = [document_of i r]) /\
     (forall d, d ∈ docs ->
        exists i r, records four_records !! i = Some r /\ retained r = true /\
                    d = document_of i r)).
Proof.
  apply (proj1 (preprocess_kcc_documents four_records)). reflexivity.
Defined.

(** The four records give two documents, numbered 1 and 3. *)
Example four_records_documents :
  preprocess_kcc four_records
  = Return [document_of 1 answered; document_of 3 answered]
  /\ id (document_of 1 answered) = "1" /\ id (document_of 3 answered) = "3".
Proof. repeat split; vm_compute; reflexivity. Qed.

(** C7, as the specification has it, fails on two kinds of file.  In a
    file whose records have one field more than the header, the id of a
    document is the first field of its record, not the number of its
    place: the kept record at place 0 of [labelled_records] has no
    document with the id [0].  And in a file without one of the metadata
    columns a kept record gives no document at all: the function raises
    [KeyError]. *)
Lemma id_is_not_always_the_place :
  ~ (forall (t : csv_table) (i : nat) (r : gmap string string),
       records t !! i = Some r -> retained r = true ->
       exists docs d, preprocess_kcc t = Return docs /\ d ∈ docs /\
                      id d = pretty i) /\
  (exists docs, preprocess_kcc labelled_records = Return docs /\
     id <$> docs = ["r1"; "r3"]) /\
  preprocess_kcc Scenarios.no_state_column = Raise (KeyError "'StateName'").
Proof.
  split; [|split].
  - intros H.
    destruct (H labelled_records 0 answered eq_refl eq_refl)
      as (docs & d & Hd & Hin & Hid).
    vm_compute in Hd. injection Hd as <-.
    apply elem_of_cons in Hin as [-> | Hin];
      [vm_compute in Hid; discriminate Hid|].
    apply elem_of_cons in Hin as [-> | Hin];
      [vm_compute in Hid; discriminate Hid|].
    inversion Hin.
  - eexists. split; vm_compute; reflexivity.
  - vm_compute. reflexivity.
Qed.

(** C8, as the code has it.  For a record that is kept, in a file with the
    two text columns.  When the file also has the three metadata columns,
    the f-string of lines 23 to 26 raises nothing and gives the template
    filled with the query, the answer and, for each of state, district
    and crop, the cell or [nan] where the cell is missing; the document
    with that content, under the index label of the record, is among those
    written.  When the file lacks one of the three columns, the f-string
    raises [KeyError] for the first that is missing, and so does the
    function: nothing is written. *)
Theorem content_with_missing_metadata (t : csv_table) (i : nat)
    (r : gmap string string) :
  "QueryText"%string ∈ header t -> "KccAns"%string ∈ header t ->
  records t !! i = Some r ->
  retained r = true ->
  exists query answer,
    r !! "QueryText" = Some query /\ r !! "KccAns" = Some answer /\
    (has_columns t = true ->
     text_of_row {| labels := header t; cells := r |}
     = Return (template query answer
                 (default "nan" (r !! "StateName"))
                 (default "nan" (r !! "DistrictName"))
                 (default "nan" (r !! "Crop"))) /\
     exists docs, preprocess_kcc t = Return docs /\
       {| id := str_of_label (row_label t i);
          content := template query answer
                       (default "nan" (r !! "StateName"))
                       (default "nan" (r !! "DistrictName"))
                       (default "nan" (r !! "Crop")) |} ∈ docs) /\
    (forall c,
       List.find (fun c => negb (bool_decide (c ∈ header t)))
                 ["StateName"; "DistrictName"; "Crop"]%string = Some c ->
       text_of_row {| labels := header t; cells := r |}
       = Raise (KeyError (repr_str c)) /\
       preprocess_kcc t = Raise (KeyError (repr_str c))).
Proof.
  intros Hcq Hca Hi Hr.
  destruct (proj1 (retained_true r) Hr) as [q [a [Hq Ha]]].
  exists q, a. split; [exact Hq|]. split; [exact Ha|]. split.
  - intros H. split.
    + rewrite (text_of_row_template (header t) r
                 (fun c => has_columns_elem t c H)).
      unfold document_of. simpl. rewrite Hq, Ha. reflexivity.
    + exists (normalize_labelled (row_label t) 0 (records t)).
      split; [apply preprocess_kcc_labelled, H|].
      pose proof (normalize_labelled_lookup (row_label t) (records t) 0 i r
                    Hi Hr) as Hd.
      unfold labelled_document, document_of in Hd. simpl in Hd.
      rewrite Hq, Ha in Hd. exact Hd.
  - intros c Hc. split.
    + apply text_of_row_missing; assumption.
    + apply (preprocess_kcc_missing t c Hcq Hca Hc).
      apply existsb_exists. exists r. split; [|exact Hr].
      apply list_elem_of_In. eapply list_elem_of_lookup_2. exact Hi.
Qed.

Lemma content_with_missing_metadata_witness :
  exists query answer,
    answered !! "QueryText" = Some query /\ answered !! "KccAns" = Some answer /\
    (has_columns four_records = true ->
     text_of_row {| labels := header four_records; cells := answered |}
     = Return (template query answer
                 (default "nan" (answered !! "StateName"))
                 (default "nan" (answered !! "DistrictName"))
                 (default "nan" (answered !! "Crop"))) /\
     exists docs, preprocess_kcc four_records = Return docs /\
       {| id := str_of_label (row_label four_records 1);
          content := template query answer
                       (default "nan" (answered !! "StateName"))
                       (default "nan" (answered !! "DistrictName"))
                       (default "nan" (answered !! "Crop")) |} ∈ docs) /\
    (forall c,
       List.find (fun c => negb (bool_decide (c ∈ header four_records)))
                 ["StateName"; "DistrictName"; "Crop"]%string = Some c ->
       text_of_row {| labels := header four_records; cells := answered |}
       = Raise (KeyError (repr_str c)) /\
       preprocess_kcc four_records = Raise (KeyError (repr_str c))).
Proof.
  apply (content_with_missing_metadata four_records 1 answered).
  - compute_done.
  - compute_done.
  - reflexivity.
  - reflexivity.
Defined.

(** The content of a record without state and district. *)
Example answered_content :
  text_of_row {| labels := read_columns; cells := answered |}
  = Return ("Query: How to control aphids?" +:+ nl +:+
            "Answer: Spray neem oil." +:+ nl +:+
            "Meta: State=nan, District=nan, Crop=mustard").
Proof. vm_compute. reflexivity. Qed.

(** C8, as the specification has it, fails: building the content of a kept
    record does raise, when a metadata column is missing from the file
    rather than a cell from the record.  In the file without the [Crop]
    column the record with both texts raises [KeyError] for ['Crop']. *)
Lemma absent_column_raises :
  ~ (forall (t : csv_table) (i : nat) (r : gmap string string),
       records t !! i = Some r -> retained r = true ->
       exists text, text_of_row {| labels := header t; cells := r |}
                    = Return text) /\
  text_of_row {| labels := header without_crop; cells := answered |}
  = Raise (KeyError "'Crop'") /\
  preprocess_kcc without_crop = Raise (KeyError "'Crop'").
Proof.
  split; [|split; vm_compute; reflexivity].
  intros H. destruct (H without_crop 1 answered eq_refl eq_refl) as [text Ht].
  vm_compute in Ht. discriminate Ht.
Qed.

End NormalizerFacts.

(** ** The fallback search *)

Module FallbackFacts.
Import Fallback Inputs.
Local Open Scope list_scope.

(** *** Texts and their first characters *)

Lemma concat_head (sep x : string) (l : list string) :
  exists rest, String.concat sep (x :: l) = (x +:+ rest)%string.
Proof.
  destruct l as [|y l]; simpl.
  - exists ""%string. clear. induction x as [|a x IH]; [reflexivity|].
    change (String a x = String a (x +:+ "")). f_equal. exact IH.
  - eexists. reflexivity.
Qed.

(** A text that begins with a result block is neither empty nor one of
    the two unavailability texts. *)
Lemma result_text_head (i : nat) (t b h rest : string) :
  truthy (result_text i t b h +:+ rest) = true /\
  String.prefix "Live search unavailable" (result_text i t b h +:+ rest) = false /\
  String.prefix "Alternative search unavailable" (result_text i t b h +:+ rest)
  = false.
Proof. repeat split; reflexivity. Qed.

Lemma live_search_text_head (data : serp_json) :
  truthy (live_search_text data) = true /\
  String.prefix "Live search unavailable" (live_search_text data) = false.
Proof.
  unfold live_search_text.
  destruct (search_results data) as [|r rs]; [split; reflexivity|].
  simpl take. rewrite imap_cons.
  destruct (concat_head separator
              (result_text 1 (title r) (snippet r) (source r))
              (imap ((fun i r => result_text (S i) (title r) (snippet r) (source r)) ∘ S)
                    (take 2 rs))) as [rest ->].
  split; apply result_text_head.
Qed.

(** *** The loop over the DuckDuckGo results *)

Lemma ddg_loop_blocks (results : list (gmap string string)) :
  forall (i : nat) (acc fs : list string),
    ddg_loop i results acc = Return fs ->
    exists more, fs = acc ++ more /\ length more = length results /\
      (results <> [] -> exists t b h tl, more = result_text i t b h :: tl).
Proof.
  induction results as [|r rest IH]; intros i acc fs; simpl.
  - intros [= <-]. exists []. rewrite app_nil_r. repeat split.
    intros H. destruct H. reflexivity.
  - unfold ddg_text.
    destruct (dict_getitem r "title") as [t|e]; simpl; [|discriminate].
    destruct (dict_getitem r "body") as [b|e]; simpl; [|discriminate].
    destruct (dict_getitem r "href") as [h|e]; simpl; [|discriminate].
    intros H. destruct (IH _ _ _ H) as [more [-> [Hlen _]]].
    exists (result_text i t b h :: more). rewrite <- app_assoc. simpl.
    repeat split; [congruence|]. intros _. eauto.
Qed.

Lemma duckduckgo_answer_head (w : providers) (query text : string) :
  duckduckgo_answer w query = Return text ->
  truthy text = true /\
  String.prefix "Alternative search unavailable" text = false.
Proof.
  unfold duckduckgo_answer, mbind, py_bind.
  destruct (duckduckgo_search w) as [f|e]; [|discriminate].
  destruct (f _ 3) as [[|r rest]|e]; try discriminate.
  - intros [= <-]. split; reflexivity.
  - destruct (ddg_loop 1 (r :: rest) []) as [fs|e] eqn:E; [|discriminate].
    intros [= <-]. destruct (ddg_loop_blocks _ _ _ _ E) as [more [-> [_ Hd]]].
    destruct Hd as [t [b [h [tl ->]]]]; [discriminate|]. simpl app.
    destruct (concat_head separator (result_text 1 t b h) tl) as [rest' ->].
    split; apply result_text_head.
Qed.

(** *** What each function returns *)

(** [fallback_live_search] with a key: one call, the text of the answer
    or, for an exception, a text that begins [Live search unavailable]. *)
Lemma fallback_live_search_run (w : providers) (query : string)
    (api_key : option string) (log : list event) :
  falsy api_key = false ->
  match serpapi_answer w query api_key with
  | Return data =>
      fallback_live_search w query api_key 5 log
      = (Return (live_search_text data), log ++ [serpapi_call query api_key])
  | Raise e =>
      exists text,
        fallback_live_search w query api_key 5 log
        = (Return text, log ++ [serpapi_call query api_key]) /\
        String.prefix "Live search unavailable" text = true
  end.
Proof.
  intros Hk. unfold fallback_live_search, serpapi_answer. rewrite Hk.
  unfold try_except, perform, mbind, io_bind, mret, io_ret.
  change (pretty 5) with "5"%string.
  fold (serpapi_params query api_key).
  destruct (requests_get w search_url (serpapi_params query api_key)) as [data|e].
  - reflexivity.
  - destruct e; eexists; split; reflexivity.
Qed.

(** [fallback_search_alternative]: the text of the answer or, for an
    exception, a text that begins [Alternative search unavailable]; the
    call is logged unless the import failed. *)
Lemma fallback_search_alternative_run (w : providers) (query : string)
    (log : list event) :
  exists text evs,
    fallback_search_alternative w query 3 log = (Return text, log ++ evs) /\
    evs = match duckduckgo_search w with
          | Return _ => [duckduckgo_call query]
          | Raise _ => []
          end /\
    match duckduckgo_answer w query with
    | Return t => text = t
    | Raise _ => String.prefix "Alternative search unavailable" text = true
    end.
Proof.
  unfold fallback_search_alternative, duckduckgo_answer, duckduckgo_call.
  unfold try_except, perform, lift, mbind, io_bind, py_bind, mret, io_ret.
  destruct (duckduckgo_search w) as [f|e].
  - destruct (f _ 3) as [[|r rest]|e].
    + do 2 eexists. repeat split.
    + destruct (ddg_loop 1 (r :: rest) []) as [fs|e].
      * do 2 eexists. repeat split.
      * destruct e; do 2 eexists; repeat split.
    + destruct e; do 2 eexists; repeat split.
  - destruct e; eexists; exists []; rewrite app_nil_r; repeat split.
Qed.

(** [comprehensive_fallback_search], case by case: with a key and an
    answer from SerpAPI, that answer's text under the first banner and one
    call; otherwise the DuckDuckGo text under the second banner, or the
    fixed unavailability text when the DuckDuckGo side raised. *)
Lemma comprehensive_run (w : providers) (query : string)
    (api_key : option string) (log : list event) :
  comprehensive_fallback_search w query api_key log =
  match (if falsy api_key then None
         else Some (serpapi_answer w query api_key)) with
  | Some (Return data) =>
      (Return (serpapi_banner +:+ live_search_text data)%string,
       log ++ [serpapi_call query api_key])
  | first =>
      (Return match duckduckgo_answer w query with
              | Return t => (ddg_banner +:+ t)%string
              | Raise _ => unavailable
              end,
       log ++ match first with
              | Some _ => [serpapi_call query api_key]
              | None => []
              end
           ++ match duckduckgo_search w with
              | Return _ => [duckduckgo_call query]
              | Raise _ => []
              end)
  end.
Proof.
  assert (Hddg : forall log1,
    (ddg_result ← fallback_search_alternative w query 3;
     if negb (String.prefix "Alternative search unavailable" ddg_result)
     then mret (ddg_banner +:+ ddg_result)%string
     else mret unavailable) log1 =
    (Return match duckduckgo_answer w query with
            | Return t => (ddg_banner +:+ t)%string
            | Raise _ => unavailable
            end,
     log1 ++ match duckduckgo_search w with
             | Return _ => [duckduckgo_call query]
             | Raise _ => []
             end)).
  { intros log1.
    destruct (fallback_search_alternative_run w query log1)
      as [text [evs [Hrun [-> Htext]]]].
    unfold mbind, io_bind. rewrite Hrun.
    destruct (duckduckgo_answer w query) as [t|e] eqn:E.
    - subst text. destruct (duckduckgo_answer_head w query t E) as [_ ->].
      reflexivity.
    - rewrite Htext. reflexivity. }
  unfold comprehensive_fallback_search.
  destruct (falsy api_key) eqn:Hk; simpl negb; cbv iota.
  - exact (Hddg log).
  - pose proof (fallback_live_search_run w query api_key log Hk) as Hrun.
    unfold mbind at 1, io_bind at 1. unfold mbind at 1, io_bind at 1.
    destruct (serpapi_answer w query api_key) as [data|e].
    + rewrite Hrun.
      destruct (live_search_text_head data) as [_ ->]. reflexivity.
    + destruct Hrun as [text [-> ->]]. simpl negb. cbv iota.
      rewrite app_assoc. exact (Hddg _).
Qed.

(** The DuckDuckGo side raises when the import, the call or the
    formatting of a result does. *)
Lemma duckduckgo_answer_raises (w : providers) (query : string) (e : exn) :
  duckduckgo_answer w query = Raise e <->
  duckduckgo_search w = Raise e \/
  (exists f, duckduckgo_search w = Return f /\
     (f ("agricultural advice " +:+ query +:+ " farming")%string 3 = Raise e \/
      exists results, f ("agricultural advice " +:+ query +:+ " farming")%string 3
                      = Return results /\
        ddg_loop 1 results [] = Raise e)).
Proof.
  unfold duckduckgo_answer, mbind, py_bind.
  destruct (duckduckgo_search w) as [f|e0].
  - destruct (f _ 3) as [[|r rest]|e1] eqn:Ef.
    + split; [discriminate|].
      intros [H|[f' [[= <-] [H|[results [H1 H2]]]]]]; try congruence.
      rewrite Ef in H1. injection H1 as <-. discriminate H2.
    + destruct (ddg_loop 1 (r :: rest) []) as [fs|e2] eqn:El.
      * split; [discriminate|].
        intros [H|[f' [[= <-] [H|[results [H1 H2]]]]]]; try congruence.
      * split.
        -- intros [= <-]. right. exists f. split; [reflexivity|].
           right. exists (r :: rest). split; assumption.
        -- intros [H|[f' [[= <-] [H|[results [H1 H2]]]]]]; congruence.
    + split.
      * intros [= <-]. right. exists f. split; [reflexivity|]. left. exact Ef.
      * intros [H|[f' [[= <-] [H|[results [H1 H2]]]]]]; congruence.
  - split.
    + intros [= <-]. left. reflexivity.
    + intros [H|[f' [H _]]]; congruence.
Qed.

(** C1, as the code has it.  SerpAPI is called first, and only with a
    key; DuckDuckGo is called after it, and only when there is no key or
    the SerpAPI call raised.  An answer of SerpAPI is what the search
    returns, under the first banner, whether it has result items (the first
    three) or none (the text that says so); the text of DuckDuckGo is
    returned, under the second banner, when the search got that far and
    DuckDuckGo answered. *)
Theorem fallback_priority (w : providers) (query : string)
    (api_key : option string) (log : list event) :
  exists text evs,
    comprehensive_fallback_search w query api_key log
    = (Return text, log ++ evs) /\
    sublist evs [serpapi_call query api_key; duckduckgo_call query] /\
    (serpapi_call query api_key ∈ evs <-> falsy api_key = false) /\
    (duckduckgo_call query ∈ evs <->
       (falsy api_key = true \/
        exists e, serpapi_answer w query api_key = Raise e) /\
       exists f, duckduckgo_search w = Return f) /\
    (falsy api_key = false ->
     forall data, serpapi_answer w query api_key = Return data ->
       match search_results data with
       | [] =>
           text = (serpapi_banner +:+
                   "No relevant search results found for your agricultural query.")%string
       | results =>
           text = (serpapi_banner +:+
                   String.concat separator
                     (imap (fun i r => result_text (S i) (title r) (snippet r)
                                         (source r))
                           (take 3 results)))%string
       end) /\
    (falsy api_key = true \/
     (exists e, serpapi_answer w query api_key = Raise e) ->
     forall t, duckduckgo_answer w query = Return t ->
       text = (ddg_banner +:+ t)%string).
Proof.
  rewrite comprehensive_run.
  assert (Hne : serpapi_call query api_key <> duckduckgo_call query)
    by discriminate.
  assert (Hda : forall e, duckduckgo_search w = Raise e ->
                          duckduckgo_answer w query = Raise e).
  { intros e He. unfold duckduckgo_answer. rewrite He. reflexivity. }
  destruct (falsy api_key) eqn:Hk;
    [|destruct (serpapi_answer w query api_key) as [data|e] eqn:Ea];
    (destruct (duckduckgo_search w) as [f|e'] eqn:Ed;
     [|try rewrite (Hda e' eq_refl)]);
    do 2 eexists; (split; [reflexivity|]); simpl app.
  all: split; [repeat constructor|].
  all: split; [rewrite ?elem_of_cons, ?elem_of_nil; split;
               [intros; intuition (try congruence)|discriminate || tauto]|].
  all: split; [rewrite ?elem_of_cons, ?elem_of_nil; split;
               [intros H; intuition (try congruence); eauto
               |try (intros [[H|[e0 H]] [f0 H0]]; (discriminate || auto))]|].
  all: split; [try discriminate|].
  all: try (intros _ data0 [= <-]; unfold live_search_text;
            destruct (search_results data); reflexivity).
  all: try (intros [H|[e0 H]]; discriminate).
  all: try (intros _ t Ht; rewrite Ht; reflexivity).
  all: try (intros _ t Ht; discriminate Ht).
Qed.

Lemma fallback_priority_witness :
  exists text evs,
    comprehensive_fallback_search timeout_then_two "aphids" (Some "key") []
    = (Return text, [] ++ evs) /\
    sublist evs [serpapi_call "aphids" (Some "key"); duckduckgo_call "aphids"] /\
    (serpapi_call "aphids" (Some "key") ∈ evs <-> falsy (Some "key") = false) /\
    (duckduckgo_call "aphids" ∈ evs <->
       (falsy (Some "key") = true \/
        exists e, serpapi_answer timeout_then_two "aphids" (Some "key") = Raise e) /\
       exists f, duckduckgo_search timeout_then_two = Return f) /\
    (falsy (Some "key") = false ->
     forall data, serpapi_answer timeout_then_two "aphids" (Some "key")
                  = Return data ->
       match search_results data with
       | [] =>
           text = (serpapi_banner +:+
                   "No relevant search results found for your agricultural query.")%string
       | results =>
           text = (serpapi_banner +:+
                   String.concat separator
                     (imap (fun i r => result_text (S i) (title r) (snippet r)
                                         (source r))
                           (take 3 results)))%string
       end) /\
    (falsy (Some "key") = true \/
     (exists e, serpapi_answer timeout_then_two "aphids" (Some "key") = Raise e) ->
     forall t, duckduckgo_answer timeout_then_two "aphids" = Return t ->
       text = (ddg_banner +:+ t)%string).
Proof. exact (fallback_priority timeout_then_two "aphids" (Some "key") []). Defined.

(** The priority example of the specification: the first provider fails,
    the second has two items, and the result is the second's. *)
Example failed_then_two :
  comprehensive_fallback_search timeout_then_two "aphids" (Some "key") []
  = (Return (ddg_banner +:+
             result_text 1 "Aphids" "Use neem oil." "https://example.org/a" +:+
             separator +:+
             result_text 2 "Mustard" "Sow in October." "https://example.org/m")%string,
     [serpapi_call "aphids" (Some "key"); duckduckgo_call "aphids"]).
Proof. vm_compute. reflexivity. Qed.

(** C1, as the specification has it, fails: SerpAPI answers with no
    result item, DuckDuckGo has two, and the search does not go on to
    DuckDuckGo. *)
Lemma empty_answer_no_fallthrough :
  search_results {| organic_results := Some []; answer_box := None |} = [] /\
  ~ (duckduckgo_call "aphids"
     ∈ (comprehensive_fallback_search empty_then_two "aphids" (Some "key") []).2)
  /\
  (comprehensive_fallback_search empty_then_two "aphids" (Some "key") []).1
  = Return (serpapi_banner +:+
            "No relevant search results found for your agricultural query.")%string.
Proof.
  split; [reflexivity|]. split; [|vm_compute; reflexivity].
  rewrite comprehensive_run. simpl.
  rewrite elem_of_cons, elem_of_nil. intros [H|[]]. discriminate H.
Qed.

(** C6, as the code has it.  When SerpAPI is not called for lack of a key
    or its call raises, and the DuckDuckGo side raises, the search returns
    one fixed text, which is not empty and is none of the providers'
    error texts. *)
Theorem all_providers_failed (w : providers) (query : string)
    (api_key : option string) (log : list event) :
  falsy api_key = true \/
  (exists e, serpapi_answer w query api_key = Raise e) ->
  (exists e, duckduckgo_answer w query = Raise e) ->
  (comprehensive_fallback_search w query api_key log).1 = Return unavailable /\
  truthy unavailable = true.
Proof.
  intros H1 [e2 H2]. split; [|reflexivity].
  rewrite comprehensive_run, H2.
  destruct (falsy api_key); [reflexivity|].
  destruct H1 as [H1|[e1 H1]]; [discriminate|].
  rewrite H1. reflexivity.
Qed.

Lemma all_providers_failed_witness :
  (comprehensive_fallback_search timeout_then_missing "aphids" (Some "key") []).1
  = Return unavailable /\
  truthy unavailable = true.
Proof.
  apply (all_providers_failed timeout_then_missing "aphids" (Some "key") []).
  - right. exists (RequestException "timed out"). reflexivity.
  - exists (ImportError "No module named 'duckduckgo_search'"). reflexivity.
Defined.

(** C6, as the specification has it, fails: SerpAPI raises and DuckDuckGo
    has nothing, so no provider yields anything usable, and the search
    returns the text of DuckDuckGo, not the unavailability text. *)
Lemma nothing_usable_is_not_unavailable :
  (comprehensive_fallback_search timeout_then_none "aphids" (Some "key") []).1
  <> Return unavailable.
Proof. vm_compute. discriminate. Qed.

Example nothing_usable_text :
  (comprehensive_fallback_search timeout_then_none "aphids" (Some "key") []).1
  = Return (ddg_banner +:+ "No relevant search results found.")%string.
Proof. vm_compute. reflexivity. Qed.

(** C10.  Whatever the providers do and whatever the key, the three
    search functions raise nothing, and the text of
    [comprehensive_fallback_search] is not empty. *)
Theorem fallback_search_total (w : providers) (query : string)
    (api_key : option string) (num_results : nat) (log : list event) :
  (exists text log',
     comprehensive_fallback_search w query api_key log = (Return text, log') /\
     text <> ""%string) /\
  (exists text log',
     fallback_live_search w query api_key num_results log = (Return text, log')) /\
  (exists text log',
     fallback_search_alternative w query num_results log = (Return text, log')).
Proof.
  split; [|split].
  - rewrite comprehensive_run.
    assert (Hb : forall t, (serpapi_banner +:+ t)%string <> ""%string)
      by discriminate.
    assert (Hd : forall t, (ddg_banner +:+ t)%string <> ""%string)
      by discriminate.
    assert (Hu : unavailable <> ""%string) by discriminate.
    destruct (falsy api_key);
      [|destruct (serpapi_answer w query api_key) as [data|e]];
      do 2 eexists; (split; [reflexivity|]);
      try apply Hb; destruct (duckduckgo_answer w query); auto.
  - unfold fallback_live_search.
    destruct (falsy api_key); [do 2 eexists; reflexivity|].
    unfold try_except, perform, mbind, io_bind, mret, io_ret.
    destruct (requests_get w search_url _) as [data|e];
      [|destruct e]; do 2 eexists; reflexivity.
  - unfold fallback_search_alternative.
    unfold try_except, perform, lift, mbind, io_bind, mret, io_ret.
    destruct (duckduckgo_search w) as [f|e]; [|destruct e; do 2 eexists; reflexivity].
    destruct (f _ num_results) as [[|r rest]|e];
      [| |destruct e]; try (do 2 eexists; reflexivity).
    destruct (ddg_loop 1 (r :: rest) []) as [fs|e];
      [|destruct e]; do 2 eexists; reflexivity.
Qed.

(** The organic results that are kept: those with a snippet that is not
    empty, in their order. *)
Lemma organic_item_kept (rs : list (gmap string string)) (it : item) :
  it ∈ omap organic_item rs <->
  exists r, r ∈ rs /\ dict_get r "snippet" "" <> ""%string /\
    it = {| title := dict_get r "title" ""; snippet := dict_get r "snippet" "";
            source := dict_get r "link" "" |}.
Proof.
  rewrite list_elem_of_omap. unfold organic_item.
  split; intros [r [Hr H]]; exists r.
  - destruct (dict_get r "snippet" "") eqn:E; simpl in H; [discriminate|].
    injection H as <-. repeat split; [exact Hr|discriminate].
  - destruct H as [Hs ->]. split; [exact Hr|].
    destruct (dict_get r "snippet" ""); [congruence|reflexivity].
Qed.

(** C5, as the code has it.  For a SerpAPI answer: an organic result is
    kept exactly when it has a snippet that is not empty; the answer box,
    when it has a snippet (not empty), comes first, before the kept organic
    results; the first three of that list are shown, so exactly three when
    there are more than three, the answer box among them.  For DuckDuckGo
    the loop formats every result it is given. *)
Theorem results_shown (data : serp_json) :
  let kept := omap organic_item (default [] (organic_results data)) in
  let results := search_results data in
  let shown := take 3 results in
  (forall it, it ∈ kept <->
     exists r, r ∈ default [] (organic_results data) /\
       dict_get r "snippet" "" <> ""%string /\
       it = {| title := dict_get r "title" ""; snippet := dict_get r "snippet" "";
               source := dict_get r "link" "" |}) /\
  (forall box s, answer_box data = Some box -> box !! "snippet" = Some s ->
     s <> ""%string ->
     results = {| title := "Featured Answer"; snippet := s;
                  source := dict_get box "link" "" |} :: kept /\
     head shown = Some {| title := "Featured Answer"; snippet := s;
                          source := dict_get box "link" "" |}) /\
  (answer_box data = None \/
   (exists box, answer_box data = Some box /\ box !! "snippet" = None) ->
   results = kept) /\
  length shown <= 3 /\
  (3 < length results -> length shown = 3) /\
  (results <> [] ->
   live_search_text data =
   String.concat separator
     (imap (fun i r => result_text (S i) (title r) (snippet r) (source r)) shown)) /\
  (forall results' i fs, ddg_loop i results' [] = Return fs ->
     length fs = length results').
Proof.
  intros kept results shown.
  assert (Hk : match organic_results data with
               | Some rs => omap organic_item rs
               | None => []
               end = kept).
  { unfold kept. destruct (organic_results data); reflexivity. }
  repeat split.
  - apply organic_item_kept.
  - apply organic_item_kept.
  - unfold results, search_results. rewrite H, H0, Hk. reflexivity.
  - unfold shown, results, search_results. rewrite H, H0. reflexivity.
  - intros [H|[box [H H0]]]; unfold results, search_results;
      rewrite H, ?H0; exact Hk.
  - unfold shown. rewrite length_take. lia.
  - intros H. unfold shown. rewrite length_take. lia.
  - intros H. unfold live_search_text. fold results shown.
    destruct results; [congruence|reflexivity].
  - intros results' i fs H.
    destruct (ddg_loop_blocks _ _ _ _ H) as [more [-> [Hlen _]]].
    exact Hlen.
Qed.

Lemma results_shown_witness :
  take 3 (search_results five_and_box)
  = [ {| title := "Featured Answer"; snippet := "Neem oil controls aphids.";
         source := "https://example.org/box" |};
      {| title := "Title 1"; snippet := "Text 1";
         source := "https://example.org/1" |};
      {| title := "Title 2"; snippet := "Text 2";
         source := "https://example.org/2" |} ] /\
  length (take 3 (search_results five_and_box)) = 3.
Proof.
  destruct (results_shown five_and_box) as (_ & Hbox & _ & _ & Hcap & _).
  destruct (Hbox {[ "snippet" := "Neem oil controls aphids.";
                    "link" := "https://example.org/box" ]}%string
                 "Neem oil controls aphids."%string
                 eq_refl eq_refl ltac:(discriminate)) as [Hres _].
  split; [rewrite Hres; reflexivity|].
  apply Hcap. rewrite Hres. vm_compute. lia.
Defined.

(** C5, as the specification has it, fails: DuckDuckGo answers with one
    result whose body, the snippet, is empty, and the result is shown. *)
Lemma result_without_snippet_is_shown :
  bodyless_page !! "body" = Some ""%string /\
  (comprehensive_fallback_search only_bodyless "aphids" None []).1
  = Return (ddg_banner +:+
            result_text 1 "Aphids" "" "https://example.org/a")%string /\
  (comprehensive_fallback_search only_bodyless "aphids" None []).1
  <> Return (ddg_banner +:+ "No relevant search results found.")%string.
Proof.
  split; [reflexivity|]. split; [vm_compute; reflexivity|].
  vm_compute. discriminate.
Qed.

(** A result without the [body] key makes the whole DuckDuckGo answer
    fail. *)
Example result_without_body_key :
  duckduckgo_answer
    {| requests_get := fun _ _ => Raise (RequestException "timed out");
       duckduckgo_search := Return (fun _ _ => Return [aphids_page; title_only]) |}
    "aphids"
  = Raise (KeyError "'body'").
Proof. vm_compute. reflexivity. Qed.

(** The answer box of [empty_box] has the key and an empty text; the
    code takes the key for the test. *)
Example answer_box_with_empty_snippet :
  search_results empty_box
  = [ {| title := "Featured Answer"; snippet := ""; source := "" |} ].
Proof. reflexivity. Qed.

End FallbackFacts.

(** ** The normalizer at its edges *)

Module NormalizerEdges.
Import Normalizer Inputs Scenarios.
Local Open Scope list_scope.

(** The f-string, when it raises nothing, is the template. *)
Lemma text_of_row_return (cols : list string) (r : gmap string string)
    (x : string) :
  text_of_row {| labels := cols; cells := r |} = Return x ->
  x = content (document_of 0 r).
Proof.
  unfold text_of_row, getitem. simpl labels. simpl cells.
  destruct (bool_decide ("QueryText"%string ∈ cols)); simpl; [|discriminate].
  destruct (bool_decide ("KccAns"%string ∈ cols)); simpl; [|discriminate].
  destruct (bool_decide ("StateName"%string ∈ cols)); simpl; [|discriminate].
  destruct (bool_decide ("DistrictName"%string ∈ cols)); simpl; [|discriminate].
  destruct (bool_decide ("Crop"%string ∈ cols)); simpl; [|discriminate].
  intros [= <-]. reflexivity.
Qed.

(** Whatever the columns and the index labels, the loop either raises or
    makes the documents of [normalize_labelled]. *)
Lemma for_rows_return (cols : list string) (lab : nat -> index_label) :
  forall (rs : list (gmap string string)) (i : nat) (acc docs : list Document),
    for_rows
      (iterrows
         {| columns := cols;
            rows := List.filter (fun ir => retained ir.2)
                                (imap (fun j r => (lab (i + j), r)) rs) |})
      acc
    = Return docs ->
    docs = acc ++ normalize_labelled lab i rs.
Proof.
  intros rs. induction rs as [|r rest IH]; intros i acc docs.
  - simpl. intros [= <-]. rewrite app_nil_r. reflexivity.
  - unfold iterrows in *. simpl in *.
    rewrite (imap_ext _ (fun j r => (lab (S i + j), r)) rest)
      by (intros; simpl; do 2 f_equal; lia).
    destruct (retained r) eqn:E; simpl.
    + destruct (text_of_row {| labels := cols; cells := r |}) as [x|e] eqn:Ex;
        simpl; [|discriminate].
      apply text_of_row_return in Ex. subst x. intros H.
      apply (IH (S i)) in H. rewrite H, <- app_assoc, Nat.add_0_r. reflexivity.
    + apply (IH (S i)).
Qed.

Lemma preprocess_kcc_return (t : csv_table) (docs : list Document) :
  preprocess_kcc t = Return docs ->
  docs = normalize_labelled (row_label t) 0 (records t).
Proof.
  unfold preprocess_kcc, dropna, read_csv. simpl columns. simpl rows.
  destruct (List.filter _ ["QueryText"; "KccAns"]%string); [|discriminate].
  simpl. intros H.
  apply (for_rows_return (header t) (row_label t) (records t) 0 [] docs).
  rewrite <- H. do 3 f_equal. apply filter_ext. intros [i r].
  unfold retained. simpl. rewrite andb_true_r. reflexivity.
Qed.

(** The ids of [normalize_labelled lab i rs] are the labels of places from
    [i] on, each place after the one before. *)
Lemma normalize_labelled_ids (lab : nat -> index_label)
    (rs : list (gmap string string)) (i : nat) :
  exists ns,
    id <$> normalize_labelled lab i rs = (fun n => str_of_label (lab n)) <$> ns /\
    StronglySorted lt ns /\ Forall (fun n => i <= n < i + length rs) ns.
Proof.
  revert i. induction rs as [|r rest IH]; intros i.
  - exists []. repeat constructor.
  - destruct (IH (S i)) as [ns [Hid [Hs Hb]]].
    assert (Hb' : Forall (fun n => i <= n < i + length (r :: rest)) ns).
    { eapply Forall_impl; [exact Hb|]. simpl. intros; lia. }
    simpl normalize_labelled.
    destruct (retained r); [|exists ns; auto].
    exists (i :: ns). rewrite !fmap_cons, Hid. repeat split.
    + constructor; [exact Hs|].
      eapply Forall_impl; [exact Hb|]. simpl. intros; lia.
    + constructor; [simpl; lia|exact Hb'].
Qed.

(** X1.  Without the query column or the answer column the function raises
    [KeyError] with the list of the missing ones, whatever the records and
    the other columns. *)
Theorem preprocess_kcc_text_columns (t : csv_table) :
  ("QueryText"%string ∉ header t -> "KccAns"%string ∈ header t ->
   preprocess_kcc t = Raise (KeyError "['QueryText']")) /\
  ("QueryText"%string ∈ header t -> "KccAns"%string ∉ header t ->
   preprocess_kcc t = Raise (KeyError "['KccAns']")) /\
  ("QueryText"%string ∉ header t -> "KccAns"%string ∉ header t ->
   preprocess_kcc t = Raise (KeyError "['QueryText', 'KccAns']")).
Proof.
  unfold preprocess_kcc, dropna, read_csv. simpl columns. simpl List.filter.
  repeat split; intros Hq Ha; repeat case_bool_decide;
    try contradiction; reflexivity.
Qed.

Lemma preprocess_kcc_text_columns_witness :
  preprocess_kcc no_query_column = Raise (KeyError "['QueryText']").
Proof.
  apply (proj1 (preprocess_kcc_text_columns no_query_column)).
  - compute_done.
  - compute_done.
Defined.

(** X2.  With both text columns and without one of the three metadata
    columns: when no record is kept the function returns the empty list,
    and when one is kept it raises [KeyError] for the first missing of
    [StateName], [DistrictName], [Crop], so nothing is written. *)
Theorem preprocess_kcc_metadata_columns (t : csv_table) (c : string) :
  "QueryText"%string ∈ header t -> "KccAns"%string ∈ header t ->
  List.find (fun c => negb (bool_decide (c ∈ header t)))
            ["StateName"; "DistrictName"; "Crop"]%string = Some c ->
  preprocess_kcc t =
  if existsb retained (records t) then Raise (KeyError (repr_str c))
  else Return [].
Proof.
  intros Hq Ha Hc.
  destruct (existsb retained (records t)) eqn:E.
  - apply (NormalizerFacts.preprocess_kcc_missing t c Hq Ha Hc E).
  - unfold preprocess_kcc.
    rewrite (NormalizerFacts.dropna_texts (read_csv t) Hq Ha). simpl.
    unfold read_csv, iterrows. simpl columns. simpl rows.
    pose proof (NormalizerFacts.kept_rows_none (row_label t) (records t) 0 E)
      as Hk.
    change (fun j r => (row_label t (0 + j), r))
      with (fun (j : nat) (r : gmap string string) => (row_label t j, r)) in Hk.
    rewrite Hk. reflexivity.
Qed.

Lemma preprocess_kcc_metadata_columns_witness :
  preprocess_kcc no_state_column = Raise (KeyError "'StateName'").
Proof.
  apply (preprocess_kcc_metadata_columns no_state_column "StateName").
  - compute_done.
  - compute_done.
  - vm_compute. reflexivity.
Defined.

(** X3.  Whenever the function returns, whatever the columns of the file, the
    documents are in the order of the file: their ids are the index labels
    of records at places each after the one before.  In a file whose
    records are as long as its header, where pandas numbers the records,
    the ids are the decimal texts of those places, so no id occurs twice;
    the labels read from a file with an index column may repeat. *)
Theorem preprocess_kcc_order (t : csv_table) (docs : list Document) :
  preprocess_kcc t = Return docs ->
  exists ns,
    id <$> docs = (fun n => str_of_label (row_label t n)) <$> ns /\
    StronglySorted lt ns /\ Forall (fun n => n < length (records t)) ns /\
    (index_col t = None ->
     id <$> docs = pretty <$> ns /\ NoDup (id <$> docs)).
Proof.
  intros H. apply preprocess_kcc_return in H. subst docs.
  destruct (normalize_labelled_ids (row_label t) (records t) 0)
    as [ns [Hid [Hs Hb]]].
  exists ns. split; [exact Hid|]. split; [exact Hs|]. split.
  - eapply Forall_impl; [exact Hb|]. simpl. intros; lia.
  - intros Hix.
    assert (Hp : id <$> normalize_labelled (row_label t) 0 (records t)
                 = pretty <$> ns).
    { rewrite Hid. apply list_fmap_ext. intros _ n _.
      unfold row_label. rewrite Hix. reflexivity. }
    split; [exact Hp|].
    rewrite Hp. apply (NoDup_fmap_2 pretty).
    clear Hid Hb Hp. induction Hs as [|n ns Hs IH Hn]; constructor; [|exact IH].
    intros Hin. rewrite Forall_forall in Hn.
    apply Hn in Hin. lia.
Qed.

Lemma preprocess_kcc_order_witness :
  exists ns,
    id <$> [document_of 1 answered; document_of 3 answered]
    = (fun n => str_of_label (row_label four_records n)) <$> ns /\
    StronglySorted lt ns /\
    Forall (fun n => n < length (records four_records)) ns /\
    (index_col four_records = None ->
     id <$> [document_of 1 answered; document_of 3 answered] = pretty <$> ns /\
     NoDup (id <$> [document_of 1 answered; document_of 3 answered])).
Proof.
  apply (preprocess_kcc_order four_records). vm_compute. reflexivity.
Defined.

(** With an index column the ids are its fields: here those of the first
    and the third record. *)
Example labelled_records_ids :
  id <$> normalize_labelled (row_label labelled_records) 0
           (records labelled_records)
  = ["r1"; "r3"]%string /\
  preprocess_kcc labelled_records
  = Return (normalize_labelled (row_label labelled_records) 0
              (records labelled_records)).
Proof. split; vm_compute; reflexivity. Qed.

End NormalizerEdges.

(** ** Retrieval at its edges *)

Module RetrievalEdges.
Import Retrieval Inputs Scenarios.
Local Open Scope list_scope.

(** The order of IEEE floats is total away from NaN. *)
Lemma SFltb_false_SFleb (x y : spec_float) :
  x <> S754_nan -> y <> S754_nan -> SFltb x y = false -> SFleb y x = true.
Proof.
  unfold SFleb, SFltb.
  destruct x as [sx|sx| |sx mx ex], y as [sy|sy| |sy my ey]; simpl;
    try congruence;
    try (destruct sx; simpl; try congruence);
    try (destruct sy; simpl; try congruence).
  all: intros _ _.
  all: change (Pos.compare_cont Eq mx my) with (Pos.compare mx my);
       change (Pos.compare_cont Eq my mx) with (Pos.compare my mx).
  all: rewrite (Z.compare_antisym ex ey), (Pos.compare_antisym mx my).
  all: destruct (Z.compare ex ey); simpl; try congruence;
       destruct (Pos.compare mx my); simpl; congruence.
Qed.

(** A join with a separator that is not empty is empty only for one
    empty text. *)
Lemma concat_empty (sep c : string) (rest : list string) :
  sep <> ""%string ->
  String.concat sep (c :: rest) = ""%string <-> c = ""%string /\ rest = [].
Proof.
  intros Hsep. split.
  - destruct rest as [|y l]; simpl; [auto|].
    destruct c; [|discriminate]. destruct sep; [congruence|discriminate].
  - intros [-> ->]. reflexivity.
Qed.

(** X4.  The function has no handler and raises nothing of its own: it fails
    exactly when building the embedding model fails, or, the model built
    and the index file there, when loading the file or the search fails;
    the exception is the one of the step that failed.  The model is built
    before the file is looked for, so its failure is raised even without an
    index file. *)
Theorem retrieve_raises (st : store) (query : string) (top_k : nat)
    (score_threshold : spec_float) (e : exn) :
  retrieve_context_with_score st query top_k score_threshold = Raise e <->
  embeddings st = Raise e \/
  (exists u load, embeddings st = Return u /\ index_file st = Some load /\
     (load = Raise e \/
      exists db, load = Return db /\
        similarity_search_with_score db query top_k = Raise e)).
Proof.
  unfold retrieve_context_with_score, mbind, py_bind.
  destruct (embeddings st) as [u|e0].
  - destruct (index_file st) as [[db|e1]|].
    + destruct (similarity_search_with_score db query top_k)
        as [[|[c d] rest]|e2] eqn:Es.
      * split; [discriminate|].
        intros [H|(u' & load & _ & [= <-] & [H|(db' & [= <-] & H)])];
          congruence.
      * split.
        -- destruct (gt d score_threshold); discriminate.
        -- intros [H|(u' & load & _ & [= <-] & [H|(db' & [= <-] & H)])];
             congruence.
      * split.
        -- intros [= <-]. right. exists u, (Return db). repeat split.
           right. exists db. split; [reflexivity|exact Es].
        -- intros [H|(u' & load & _ & [= <-] & [H|(db' & [= <-] & H)])];
             congruence.
    + split.
      * intros [= <-]. right. exists u, (Raise e1). repeat split. left.
        reflexivity.
      * intros [H|(u' & load & _ & [= <-] & [H|(db' & H & _)])]; congruence.
    + split; [discriminate|].
      intros [H|(u' & load & _ & H & _)]; congruence.
  - split.
    + intros [= <-]. left. reflexivity.
    + intros [H|(u' & load & H & _)]; congruence.
Qed.

Lemma retrieve_raises_witness :
  retrieve_context_with_score no_model "aphids" 3 one
  = Raise (OSError "model not found").
Proof.
  apply (proj2 (retrieve_raises no_model "aphids" 3 one
                  (OSError "model not found"))).
  left. reflexivity.
Defined.

(** X5.  Line 51 compares with [>], which is false as soon as one side is not a
    number: with a candidate, a best distance or a threshold that is NaN
    gives an accepted outcome. *)
Theorem nan_is_accepted (st : store) (db : VectorIndex) (query : string)
    (top_k : nat) (score_threshold : spec_float) (c : string)
    (best : spec_float) (rest : list (string * spec_float)) :
  embeddings st = Return tt ->
  index_file st = Some (Return db) ->
  similarity_search_with_score db query top_k = Return ((c, best) :: rest) ->
  best = S754_nan \/ score_threshold = S754_nan ->
  retrieve_context_with_score st query top_k score_threshold
  = Return (Some (String.concat (nl +:+ nl) (c :: rest.*1)), best).
Proof.
  intros He Hi Hs Hnan.
  rewrite (RetrievalFacts.retrieve_loaded st db query top_k score_threshold
             _ He Hi Hs).
  assert (Hgt : gt best score_threshold = false).
  { unfold gt, Float32.gt, SFltb.
    destruct Hnan as [-> | ->];
      [destruct (Float32.to_float32 score_threshold)|destruct best];
      reflexivity. }
  rewrite Hgt. reflexivity.
Qed.

Lemma nan_is_accepted_witness :
  retrieve_context_with_score nan_distance "aphids" 3 half
  = Return (Some ("d" +:+ nl +:+ nl +:+ "e")%string, S754_nan).
Proof.
  apply (nan_is_accepted nan_distance
           {| similarity_search_with_score := fun _ _ =>
                Return [("d"%string, S754_nan); ("e"%string, two)] |}
           "aphids" 3 half "d" S754_nan [("e"%string, two)]);
    try reflexivity.
  left. reflexivity.
Defined.

(** X6.  An accepted context comes from a loaded index that gave at least
    one candidate, whose distance is the returned one and is not above the
    threshold rounded to single precision, the precision in which line 51
    compares the two.  It is the empty text exactly when the search gave
    one candidate and its content is empty; with two candidates or more
    the separator alone makes it non-empty. *)
Theorem accepted_context_empty (st : store) (query : string) (top_k : nat)
    (score_threshold : spec_float) (context : string) (d : spec_float) :
  retrieve_context_with_score st query top_k score_threshold
  = Return (Some context, d) ->
  exists db c rest,
    index_file st = Some (Return db) /\
    similarity_search_with_score db query top_k = Return ((c, d) :: rest) /\
    SFltb (Float32.to_float32 score_threshold) d = false /\
    context = String.concat (nl +:+ nl) (c :: rest.*1) /\
    (context = ""%string <-> c = ""%string /\ rest = []).
Proof.
  unfold retrieve_context_with_score, mbind, py_bind.
  destruct (embeddings st) as [u|e]; [|discriminate].
  destruct (index_file st) as [[db|e]|]; try discriminate.
  destruct (similarity_search_with_score db query top_k)
    as [[|[c best] rest]|e] eqn:Es; try discriminate.
  destruct (gt best score_threshold) eqn:Hgt; [discriminate|].
  intros [= <- <-]. exists db, c, rest. repeat split; try assumption.
  - change (String.concat (nl +:+ nl) (c :: rest.*1) = ""%string) in H.
    apply (concat_empty (nl +:+ nl) c (rest.*1)) in H; [|discriminate].
    destruct H as [H _]. exact H.
  - change (String.concat (nl +:+ nl) (c :: rest.*1) = ""%string) in H.
    apply (concat_empty (nl +:+ nl) c (rest.*1)) in H; [|discriminate].
    destruct H as [_ H]. destruct rest; [reflexivity|discriminate].
  - intros [-> ->]. reflexivity.
Qed.

Lemma accepted_context_empty_witness :
  exists db c rest,
    index_file blank_document = Some (Return db) /\
    similarity_search_with_score db "aphids" 3 = Return ((c, half) :: rest) /\
    SFltb (Float32.to_float32 one) half = false /\
    ""%string = String.concat (nl +:+ nl) (c :: rest.*1) /\
    (""%string = ""%string <-> c = ""%string /\ rest = []).
Proof.
  apply (accepted_context_empty blank_document "aphids" 3 one "" half).
  reflexivity.
Defined.

End RetrievalEdges.

(** ** The fallback search at its edges *)

Module FallbackEdges.
Import Fallback Inputs Scenarios.
Local Open Scope list_scope.

(** X7.  The two search functions report a failure in their text, and
    [comprehensive_fallback_search] reads it back from the first words.
    For SerpAPI that reading is exact: the text begins
    [Live search unavailable] exactly when there was no key or the call
    raised, whatever the titles and snippets of the results say. *)
Theorem live_search_unavailable_prefix (w : providers) (query : string)
    (api_key : option string) (log : list event) :
  exists text log',
    fallback_live_search w query api_key 5 log = (Return text, log') /\
    (String.prefix "Live search unavailable" text = true <->
     falsy api_key = true \/
     exists e, serpapi_answer w query api_key = Raise e).
Proof.
  destruct (falsy api_key) eqn:Hk.
  - unfold fallback_live_search. rewrite Hk. do 2 eexists.
    split; [reflexivity|]. split; [auto|reflexivity].
  - pose proof (FallbackFacts.fallback_live_search_run w query api_key log Hk)
      as Hrun.
    destruct (serpapi_answer w query api_key) as [data|e].
    + do 2 eexists. split; [exact Hrun|].
      destruct (FallbackFacts.live_search_text_head data) as [_ ->].
      split; [discriminate|]. intros [H|[e H]]; discriminate.
    + destruct Hrun as [text [Hrun Hp]]. do 2 eexists.
      split; [exact Hrun|]. rewrite Hp. split; eauto.
Qed.

Example misleading_title_is_shown :
  (comprehensive_fallback_search misleading_title "aphids" (Some "key") []).1
  = Return (serpapi_banner +:+
            result_text 1 "Live search unavailable"
              "Live search unavailable: try later" "")%string.
Proof. vm_compute. reflexivity. Qed.

(** X8.  The text of [fallback_search_alternative] begins
    [Alternative search unavailable] exactly when the import, the call or
    the formatting of a result raised; the function itself raises
    nothing. *)
Theorem alternative_search_unavailable_prefix (w : providers) (query : string)
    (log : list event) :
  exists text log',
    fallback_search_alternative w query 3 log = (Return text, log') /\
    (String.prefix "Alternative search unavailable" text = true <->
     exists e, duckduckgo_answer w query = Raise e).
Proof.
  destruct (FallbackFacts.fallback_search_alternative_run w query log)
    as [text [evs [Hrun [_ Ht]]]].
  exists text, (log ++ evs). split; [exact Hrun|].
  destruct (duckduckgo_answer w query) as [t|e] eqn:E.
  - subst text. destruct (FallbackFacts.duckduckgo_answer_head w query t E)
      as [_ ->].
    split; [discriminate|]. intros [e H]. discriminate.
  - rewrite Ht. split; eauto.
Qed.

(** The loop over the DuckDuckGo results stops at the first result that
    lacks one of the three keys. *)
Lemma ddg_loop_malformed (results : list (gmap string string)) :
  forall (i : nat) (acc : list string),
    (exists r, r ∈ results /\
       (r !! "title"%string = None \/ r !! "body"%string = None \/
        r !! "href"%string = None)) ->
    exists k, k ∈ ["title"; "body"; "href"]%string /\
      ddg_loop i results acc = Raise (KeyError (repr_str k)).
Proof.
  induction results as [|r0 rest IH]; intros i acc [r [Hr Hm]].
  - inversion Hr.
  - simpl. unfold ddg_text, dict_getitem, mbind, py_bind.
    destruct (r0 !! "title"%string) as [t|] eqn:Et;
      [|exists "title"%string; split; [rewrite !elem_of_cons; auto|reflexivity]].
    destruct (r0 !! "body"%string) as [b|] eqn:Eb;
      [|exists "body"%string; split; [rewrite !elem_of_cons; auto|reflexivity]].
    destruct (r0 !! "href"%string) as [h|] eqn:Eh;
      [|exists "href"%string; split; [rewrite !elem_of_cons; auto|reflexivity]].
    apply IH. apply elem_of_cons in Hr as [->|Hr]; [|eauto].
    destruct Hm as [Hm|[Hm|Hm]]; congruence.
Qed.

(** X9.  One DuckDuckGo result without a title, a body or a link loses the
    whole answer, the good results with it: the text of the alternative
    search names the missing key, and the search as a whole, SerpAPI being
    out, ends on the unavailability text. *)
Theorem malformed_result_loses_answer (w : providers) (query : string)
    (api_key : option string) (log : list event)
    (ddgs_text : string -> nat -> py_result (list (gmap string string)))
    (results : list (gmap string string)) :
  duckduckgo_search w = Return ddgs_text ->
  ddgs_text ("agricultural advice " +:+ query +:+ " farming")%string 3
  = Return results ->
  (exists r, r ∈ results /\
     (r !! "title"%string = None \/ r !! "body"%string = None \/
      r !! "href"%string = None)) ->
  falsy api_key = true \/ (exists e, serpapi_answer w query api_key = Raise e) ->
  exists k, k ∈ ["title"; "body"; "href"]%string /\
    (fallback_search_alternative w query 3 log).1
    = Return ("Alternative search unavailable: " +:+ repr_str k)%string /\
    (comprehensive_fallback_search w query api_key log).1 = Return unavailable.
Proof.
  intros Hd Hf Hm Hs.
  destruct (ddg_loop_malformed results 1 [] Hm) as [k [Hk Hloop]].
  assert (Hne : exists r rest, results = r :: rest).
  { destruct Hm as [r [Hr _]]. destruct results; [inversion Hr|eauto]. }
  destruct Hne as [r0 [rest ->]].
  exists k. split; [exact Hk|]. split.
  - unfold fallback_search_alternative.
    unfold try_except, perform, lift, mbind, io_bind, mret, io_ret.
    rewrite Hd, Hf, Hloop. reflexivity.
  - rewrite FallbackFacts.comprehensive_run.
    assert (Ha : duckduckgo_answer w query = Raise (KeyError (repr_str k))).
    { unfold duckduckgo_answer, mbind, py_bind. rewrite Hd, Hf, Hloop.
      reflexivity. }
    rewrite Ha. destruct (falsy api_key); [reflexivity|].
    destruct Hs as [Hs|[e Hs]]; [discriminate|]. rewrite Hs. reflexivity.
Qed.

Lemma malformed_result_loses_answer_witness :
  exists k, k ∈ ["title"; "body"; "href"]%string /\
    (fallback_search_alternative one_without_body "aphids" 3 []).1
    = Return ("Alternative search unavailable: " +:+ repr_str k)%string /\
    (comprehensive_fallback_search one_without_body "aphids" (Some "key") []).1
    = Return unavailable.
Proof.
  apply (malformed_result_loses_answer one_without_body "aphids" (Some "key") []
           (fun _ _ => Return [aphids_page; title_only])
           [aphids_page; title_only]).
  - reflexivity.
  - reflexivity.
  - exists title_only. split; [rewrite !elem_of_cons; auto|]. right. left. reflexivity.
  - right. exists (RequestException "timed out"). reflexivity.
Defined.

(** X10.  A SerpAPI call that raises leaves the search where it is without a
    key: the text returned is the same, only the log has the failed call
    before the rest. *)
Theorem failed_serpapi_is_no_key (w : providers) (query : string)
    (api_key : option string) (log : list event) (e : exn) :
  falsy api_key = false ->
  serpapi_answer w query api_key = Raise e ->
  (comprehensive_fallback_search w query api_key log).1
  = (comprehensive_fallback_search w query None log).1 /\
  (comprehensive_fallback_search w query api_key log).2
  = log ++ serpapi_call query api_key
           :: drop (length log)
                   (comprehensive_fallback_search w query None log).2.
Proof.
  intros Hk Hs. rewrite !FallbackFacts.comprehensive_run. rewrite Hk, Hs.
  simpl falsy. cbv iota. simpl fst. simpl snd. split; [reflexivity|].
  rewrite drop_app_length. reflexivity.
Qed.

Lemma failed_serpapi_is_no_key_witness :
  (comprehensive_fallback_search timeout_then_two "aphids" (Some "key") []).1
  = (comprehensive_fallback_search timeout_then_two "aphids" None []).1 /\
  (comprehensive_fallback_search timeout_then_two "aphids" (Some "key") []).2
  = [] ++ serpapi_call "aphids" (Some "key")
          :: drop (length (@nil event))
               (comprehensive_fallback_search timeout_then_two "aphids" None []).2.
Proof.
  apply (failed_serpapi_is_no_key timeout_then_two "aphids" (Some "key") []
           (RequestException "timed out")); reflexivity.
Defined.

(** X11.  The text of [comprehensive_fallback_search] is always one of three:
    the unavailability text, or one of the two banners followed by the
    text of that provider, which then is not a failure text; the failure
    text of a provider is never passed on. *)
Theorem result_under_banner (w : providers) (query : string)
    (api_key : option string) (log : list event) :
  exists text,
    (comprehensive_fallback_search w query api_key log).1 = Return text /\
    (text = unavailable \/
     (exists t, text = (serpapi_banner +:+ t)%string /\
        String.prefix "Live search unavailable" t = false) \/
     (exists t, text = (ddg_banner +:+ t)%string /\
        String.prefix "Alternative search unavailable" t = false)).
Proof.
  rewrite FallbackFacts.comprehensive_run.
  assert (Hddg : exists text,
    Return match duckduckgo_answer w query with
           | Return t => (ddg_banner +:+ t)%string
           | Raise _ => unavailable
           end = Return text /\
    (text = unavailable \/
     (exists t, text = (serpapi_banner +:+ t)%string /\
        String.prefix "Live search unavailable" t = false) \/
     (exists t, text = (ddg_banner +:+ t)%string /\
        String.prefix "Alternative search unavailable" t = false))).
  { destruct (duckduckgo_answer w query) as [t|e] eqn:E;
      eexists; (split; [reflexivity|]); [|auto].
    right. right. exists t. split; [reflexivity|].
    apply (FallbackFacts.duckduckgo_answer_head w query t E). }
  destruct (falsy api_key); [exact Hddg|].
  destruct (serpapi_answer w query api_key) as [data|e]; [|exact Hddg].
  eexists. split; [reflexivity|]. right. left. eexists.
  split; [reflexivity|]. apply FallbackFacts.live_search_text_head.
Qed.

End FallbackEdges.

(** ** Building the index *)

Module BuilderFacts.
Import Normalizer Builder Inputs Scenarios.
Local Open Scope list_scope.

Lemma page_contents_to_json (docs : list Document) :
  page_contents (to_json <$> docs) = Return (content <$> docs).
Proof.
  induction docs as [|d rest IH]; [reflexivity|].
  rewrite !fmap_cons. simpl page_contents. rewrite IH.
  unfold Fallback.dict_getitem, to_json.
  rewrite lookup_insert_ne by discriminate.
  rewrite lookup_singleton_eq. reflexivity.
Qed.

Lemma page_contents_missing (docs : list (gmap string string)) :
  (exists d, d ∈ docs /\ d !! "content"%string = None) ->
  page_contents docs = Raise (KeyError "'content'").
Proof.
  induction docs as [|d0 rest IH]; intros [d [Hd Hm]]; [inversion Hd|].
  simpl. unfold Fallback.dict_getitem.
  destruct (d0 !! "content"%string) as [c|] eqn:E; [|reflexivity].
  apply elem_of_cons in Hd as [->|Hd]; [congruence|].
  simpl. rewrite IH by eauto. reflexivity.
Qed.

(** The contents of [normalize_labelled] are the filled templates of the
    kept records, in their order, whatever the labels. *)
Lemma normalize_labelled_contents (lab : nat -> index_label)
    (rs : list (gmap string string)) (i : nat) :
  content <$> normalize_labelled lab i rs
  = (fun r => content (document_of 0 r)) <$> List.filter retained rs.
Proof.
  revert i. induction rs as [|r rest IH]; intros i; [reflexivity|].
  simpl. destruct (retained r); [|apply IH].
  rewrite !fmap_cons, IH. reflexivity.
Qed.

(** X12.  An entry of the documents file without a [content] member makes
    [build_vector_store] raise [KeyError: 'content'], whatever the other
    entries are and whatever FAISS and the pickling would have done. *)
Theorem build_entry_without_content (s : sources)
    (docs : list (gmap string string)) :
  embeddings s = Return tt ->
  docs_file s = Return docs ->
  (exists d, d ∈ docs /\ d !! "content"%string = None) ->
  build_vector_store s = Raise (KeyError "'content'").
Proof.
  intros He Hd Hm. unfold build_vector_store. rewrite He, Hd. simpl.
  rewrite (page_contents_missing docs Hm). reflexivity.
Qed.

Lemma build_entry_without_content_witness :
  build_vector_store entry_without_content = Raise (KeyError "'content'").
Proof.
  apply (build_entry_without_content entry_without_content
           [to_json (document_of 0 answered); {[ "id" := "1"%string ]}]).
  - reflexivity.
  - reflexivity.
  - exists {[ "id" := "1"%string ]}. split; [rewrite !elem_of_cons; auto|].
    reflexivity.
Defined.

(** X13.  [build_vector_store] on the file that [preprocess_kcc] wrote hands
    FAISS the filled templates of the kept records, in the order of the
    CSV file and without the ids; it never fails on a missing member, and
    its outcome is that of FAISS and of the pickling. *)
Theorem build_after_preprocess (s : sources) (t : csv_table)
    (docs : list Document) :
  preprocess_kcc t = Return docs ->
  embeddings s = Return tt ->
  docs_file s = Return (to_json <$> docs) ->
  build_vector_store s =
  (db ← from_documents s
          ((fun r => content (document_of 0 r)) <$> List.filter retained (records t));
   _ ← dump s; Return db).
Proof.
  intros Hp He Hd. apply NormalizerEdges.preprocess_kcc_return in Hp.
  subst docs. unfold build_vector_store. rewrite He, Hd. simpl.
  rewrite page_contents_to_json, normalize_labelled_contents. reflexivity.
Qed.

Lemma build_after_preprocess_witness :
  build_vector_store after_preprocess =
  (db ← from_documents after_preprocess
          ((fun r => content (document_of 0 r))
             <$> List.filter retained (records four_records));
   _ ← dump after_preprocess; Return db).
Proof.
  apply (build_after_preprocess after_preprocess four_records
           [document_of 1 answered; document_of 3 answered]).
  - vm_compute. reflexivity.
  - reflexivity.
  - reflexivity.
Defined.

End BuilderFacts.

(** ** The script: local answer first, web search second *)

Module AppFacts.
Import Retrieval Synthesizer Fallback App Inputs Scenarios.
Local Open Scope list_scope.

(** The search returns a text, whatever the providers do. *)
Lemma search_returns (w : providers) (query : string)
    (api_key : option string) :
  exists text, (comprehensive_fallback_search w query api_key []).1 = Return text.
Proof.
  rewrite FallbackFacts.comprehensive_run.
  destruct (falsy api_key); [eexists; reflexivity|].
  destruct (serpapi_answer w query api_key); eexists; reflexivity.
Qed.

(** Without a key the search makes no call to SerpAPI. *)
Lemma search_without_key (w : providers) (query : string)
    (api_key : option string) :
  falsy api_key = true ->
  (comprehensive_fallback_search w query api_key []).2 =
  match duckduckgo_search w with
  | Return _ => [duckduckgo_call query]
  | Raise _ => []
  end.
Proof.
  intros Hk. rewrite FallbackFacts.comprehensive_run, Hk. reflexivity.
Qed.

(** The script with a context found: two widgets, the process, then the
    answer or the error. *)
Lemma handle_query_local (w : world) (query : string) (t : spec_float)
    (c : string) (d : spec_float) (tr0 : list effect) :
  truthy query = true ->
  retrieve_context_with_score (index w) query 3 t = Return (Some c, d) ->
  c <> ""%string ->
  handle_query w query t tr0 =
  (Return tt,
   tr0 ++
   [Show (success "✅ **Found relevant information in local KCC dataset**");
    Show (info ("📊 Context relevance: **" +:+ quality d +:+
                "** (distance: " +:+ format_3f w d +:+ ")")%string);
    Run ["ollama"; "run"; "gemma:2b"; prompt_of query c]%string] ++
   match ollama w ["ollama"; "run"; "gemma:2b"; prompt_of query c]%string with
   | Return r =>
       [Show (subheader "🎯 Answer from KCC Dataset:");
        Show (markdown (Strip.strip (stdout r)));
        Show (expander_text "📖 View source context" c)]
   | Raise e =>
       [Show (error ("❌ Error getting response from local model: " +:+ str_of_exn e)%string);
        Show (info "💡 Make sure Ollama is running with Gemma 2B model")]
   end).
Proof.
  intros Hq Hr Hc. unfold handle_query. rewrite Hq.
  unfold pure, mbind at 1, ui_bind at 1. rewrite Hr. cbn [fst snd].
  assert (Hf : found (Some c) = true) by (destruct c; [congruence|reflexivity]).
  rewrite Hf. simpl default.
  unfold try_except_Exception, ask, show, ask_gemma, mbind, ui_bind, py_bind,
    mret, py_ret.
  destruct (ollama w _) as [r|e]; rewrite <- !app_assoc; reflexivity.
Qed.

(** The script without a context and with the secrets read: three
    widgets, the calls of the search, then its text. *)
Lemma handle_query_fallback (w : world) (query : string) (t : spec_float)
    (context : option string) (d : spec_float) (v : option string)
    (live_results : string) (tr0 : list effect) :
  truthy query = true ->
  retrieve_context_with_score (index w) query 3 t = Return (context, d) ->
  found context = false ->
  secret w = Return v ->
  (comprehensive_fallback_search (web w) query (or_None v) []).1
  = Return live_results ->
  handle_query w query t tr0 =
  (Return tt,
   tr0 ++
   [Show (warning "⚠️ **No relevant local context found in KCC dataset**");
    Show (info ("Similarity threshold: " +:+ str_float w t +:+
                " | Best match distance: " +:+ format_3f w d)%string);
    Show (markdown "🌐 **Searching the internet for agricultural advice...**")] ++
   (Call <$> (comprehensive_fallback_search (web w) query (or_None v) []).2) ++
   [Show (subheader "🌐 Live Internet Search Results:");
    Show (markdown live_results);
    Show (caption ("⚠️ **Disclaimer:** These results are from live internet search " +:+
                   "and may not be verified agricultural advice. Please consult " +:+
                   "local agricultural experts for specific recommendations.")%string)]).
Proof.
  intros Hq Hr Hf Hs Ht. unfold handle_query. rewrite Hq.
  unfold pure, mbind at 1, ui_bind at 1. rewrite Hr. cbn [fst snd].
  rewrite Hf, Hs.
  unfold try_except_Exception, search, show, mbind, ui_bind, mret, ui_ret.
  rewrite Ht. rewrite <- !app_assoc. reflexivity.
Qed.

(** A context that is found is a text that is not empty. *)
Lemma found_Some (context : option string) :
  found context = true <-> exists c, context = Some c /\ c <> ""%string.
Proof.
  unfold found, falsy. destruct context as [[|a c]|]; simpl.
  - split; [discriminate|]. intros [c [[= <-] H]]. congruence.
  - split; [|reflexivity]. intros _. eexists.
    split; [reflexivity|discriminate].
  - split; [discriminate|]. intros [c [H _]]. discriminate.
Qed.

(** An accepted distance is not above the threshold. *)
Lemma accepted_not_above (st : store) (query : string) (top_k : nat)
    (t : spec_float) (c : string) (d : spec_float) :
  retrieve_context_with_score st query top_k t = Return (Some c, d) ->
  gt d t = false.
Proof.
  unfold retrieve_context_with_score, mbind, py_bind.
  destruct (embeddings st); [|discriminate].
  destruct (index_file st) as [[db|e]|]; try discriminate.
  destruct (similarity_search_with_score db query top_k)
    as [[|[c0 best] rest]|e]; try discriminate.
  destruct (gt best t) eqn:E; [discriminate|]. intros [= _ <-]. exact E.
Qed.

(** A trace of provider calls holds no process and no widget. *)
Lemma trace_of_calls (log : list event) :
  omap (fun x => match x with Run a => Some a | _ => None end) (Call <$> log)
  = [] /\
  omap (fun x => match x with Call e => Some e | _ => None end) (Call <$> log)
  = log /\
  omap (fun x => match x with Show x => Some x | _ => None end) (Call <$> log)
  = [].
Proof.
  induction log as [|e l (IH1 & IH2 & IH3)]; [repeat split|].
  repeat split; simpl; [exact IH1|f_equal; exact IH2|exact IH3].
Qed.

(** X14.  With a context found the script stays local: it starts [ollama] once,
    with the prompt made of that context, and calls no search provider and
    reads no secret, whether the generation succeeds or fails; and nothing
    is raised. *)
Theorem local_answer_stays_local (w : world) (query : string)
    (t : spec_float) (c : string) (d : spec_float) :
  truthy query = true ->
  retrieve_context_with_score (index w) query 3 t = Return (Some c, d) ->
  c <> ""%string ->
  exists tr,
    handle_query w query t [] = (Return tt, tr) /\
    calls tr = [] /\
    runs tr = [["ollama"; "run"; "gemma:2b"; prompt_of query c]%string].
Proof.
  intros Hq Hr Hc. rewrite (handle_query_local w query t c d [] Hq Hr Hc).
  eexists. split; [reflexivity|].
  destruct (ollama w _); split; reflexivity.
Qed.

Lemma local_answer_stays_local_witness :
  exists tr,
    handle_query no_ollama_world "aphids" one [] = (Return tt, tr) /\
    calls tr = [] /\
    runs tr = [["ollama"; "run"; "gemma:2b";
                prompt_of "aphids" ("near" +:+ nl +:+ nl +:+ "far")]%string].
Proof.
  apply (local_answer_stays_local no_ollama_world "aphids" one
           ("near" +:+ nl +:+ nl +:+ "far") half).
  - reflexivity.
  - reflexivity.
  - discriminate.
Defined.

(** X15.  What the page shows with a context found.  When [ollama] ran, the
    answer is its trimmed output under the answer heading, whatever the
    exit status, and the context in an expander; when it could not be
    started, the error with the text of the exception and the hint, and
    neither the answer nor a web search in its place. *)
Theorem local_answer_page (w : world) (query : string) (t : spec_float)
    (c : string) (d : spec_float) :
  truthy query = true ->
  retrieve_context_with_score (index w) query 3 t = Return (Some c, d) ->
  c <> ""%string ->
  shown (handle_query w query t []).2 =
  [success "✅ **Found relevant information in local KCC dataset**";
   info ("📊 Context relevance: **" +:+ quality d +:+
         "** (distance: " +:+ format_3f w d +:+ ")")%string] ++
  match ollama w ["ollama"; "run"; "gemma:2b"; prompt_of query c]%string with
  | Return r =>
      [subheader "🎯 Answer from KCC Dataset:";
       markdown (Strip.strip (stdout r));
       expander_text "📖 View source context" c]
  | Raise e =>
      [error ("❌ Error getting response from local model: " +:+ str_of_exn e)%string;
       info "💡 Make sure Ollama is running with Gemma 2B model"]
  end.
Proof.
  intros Hq Hr Hc. rewrite (handle_query_local w query t c d [] Hq Hr Hc).
  destruct (ollama w _); reflexivity.
Qed.

Lemma local_answer_page_witness :
  shown (handle_query no_ollama_world "aphids" one []).2 =
  [success "✅ **Found relevant information in local KCC dataset**";
   info ("📊 Context relevance: **" +:+ quality half +:+
         "** (distance: " +:+ print_float half +:+ ")")%string;
   error ("❌ Error getting response from local model: " +:+
          "No such file or directory: 'ollama'")%string;
   info "💡 Make sure Ollama is running with Gemma 2B model"].
Proof.
  apply (local_answer_page no_ollama_world "aphids" one
           ("near" +:+ nl +:+ nl +:+ "far") half).
  - reflexivity.
  - reflexivity.
  - discriminate.
Defined.

(** The page when [ollama] exits with status 1: an empty answer under the
    answer heading; the error and the hint of lines 110 to 112 are shown
    only when the process could not be started. *)
Example failed_run_page :
  shown (handle_query failed_ollama_world "aphids" one []).2 =
  [success "✅ **Found relevant information in local KCC dataset**";
   info ("📊 Context relevance: **" +:+ quality half +:+
         "** (distance: " +:+ print_float half +:+ ")")%string;
   subheader "🎯 Answer from KCC Dataset:";
   markdown "";
   expander_text "📖 View source context" ("near" +:+ nl +:+ nl +:+ "far")].
Proof. reflexivity. Qed.

(** X16.  Without a context, and the secrets read, the script never starts
    [ollama]: it runs the search once, its provider calls being the only
    calls, and shows the text of the search under the results heading. *)
Theorem rejected_goes_to_search (w : world) (query : string)
    (t : spec_float) (context : option string) (d : spec_float)
    (v : option string) :
  truthy query = true ->
  retrieve_context_with_score (index w) query 3 t = Return (context, d) ->
  found context = false ->
  secret w = Return v ->
  exists tr live_results,
    handle_query w query t [] = (Return tt, tr) /\
    (comprehensive_fallback_search (web w) query (or_None v) []).1
    = Return live_results /\
    runs tr = [] /\
    calls tr = (comprehensive_fallback_search (web w) query (or_None v) []).2 /\
    shown tr =
    [warning "⚠️ **No relevant local context found in KCC dataset**";
     info ("Similarity threshold: " +:+ str_float w t +:+
           " | Best match distance: " +:+ format_3f w d)%string;
     markdown "🌐 **Searching the internet for agricultural advice...**";
     subheader "🌐 Live Internet Search Results:";
     markdown live_results;
     caption ("⚠️ **Disclaimer:** These results are from live internet search " +:+
              "and may not be verified agricultural advice. Please consult " +:+
              "local agricultural experts for specific recommendations.")%string].
Proof.
  intros Hq Hr Hf Hs.
  destruct (search_returns (web w) query (or_None v)) as [text Ht].
  rewrite (handle_query_fallback w query t context d v text [] Hq Hr Hf Hs Ht).
  do 2 eexists. split; [reflexivity|]. split; [exact Ht|].
  set (log := (comprehensive_fallback_search (web w) query (or_None v) []).2).
  unfold runs, calls, shown. simpl app.
  destruct (trace_of_calls log) as (H1 & H2 & H3).
  cbn [omap list_omap]. rewrite !omap_app, H1, H2, H3.
  repeat split. apply app_nil_r.
Qed.

Lemma rejected_goes_to_search_witness :
  exists tr live_results,
    handle_query distant_world "aphids" one [] = (Return tt, tr) /\
    (comprehensive_fallback_search (web distant_world) "aphids"
       (or_None (Some ""%string)) []).1
    = Return live_results /\
    runs tr = [] /\
    calls tr = (comprehensive_fallback_search (web distant_world) "aphids"
                  (or_None (Some ""%string)) []).2 /\
    shown tr =
    [warning "⚠️ **No relevant local context found in KCC dataset**";
     info ("Similarity threshold: " +:+ str_float distant_world one +:+
           " | Best match distance: " +:+
           format_3f distant_world one_and_half)%string;
     markdown "🌐 **Searching the internet for agricultural advice...**";
     subheader "🌐 Live Internet Search Results:";
     markdown live_results;
     caption ("⚠️ **Disclaimer:** These results are from live internet search " +:+
              "and may not be verified agricultural advice. Please consult " +:+
              "local agricultural experts for specific recommendations.")%string].
Proof.
  apply (rejected_goes_to_search distant_world "aphids" one None one_and_half
           (Some ""%string)); reflexivity.
Defined.

(** X17.  The handler of lines 139 to 147 never runs: whatever the index, the
    model, the providers and the secrets do, the page never shows
    [Fallback search failed]. *)
Theorem fallback_failure_never_shown (w : world) (query : string)
    (t : spec_float) (body : string) :
  Show (error ("❌ Fallback search failed: " +:+ body)%string)
  ∉ (handle_query w query t []).2.
Proof.
  destruct (truthy query) eqn:Hq;
    [|unfold handle_query; rewrite Hq; apply not_elem_of_nil].
  destruct (retrieve_context_with_score (index w) query 3 t)
    as [[context d]|e] eqn:Hr.
  - destruct (found context) eqn:Hf.
    + apply found_Some in Hf as [c [-> Hc]].
      rewrite (handle_query_local w query t c d [] Hq Hr Hc). simpl snd.
      destruct (ollama w _); simpl app;
        rewrite !elem_of_cons, elem_of_nil; intros H;
        repeat (destruct H as [H|H]); try discriminate H; try exact H.
    + destruct (secret w) as [v|e] eqn:Hs.
      * destruct (search_returns (web w) query (or_None v)) as [text Ht].
        rewrite (handle_query_fallback w query t context d v text []
                   Hq Hr Hf Hs Ht).
        simpl snd. simpl app.
        rewrite !elem_of_cons, elem_of_app, list_elem_of_fmap, !elem_of_cons,
          elem_of_nil.
        intros H. repeat (destruct H as [H|H]); try discriminate H;
          try exact H.
        destruct H as [x [H _]]. discriminate H.
      * unfold handle_query. rewrite Hq.
        unfold pure, show, mbind, ui_bind. rewrite Hr. cbn [fst snd].
        rewrite Hf, Hs. simpl snd.
        rewrite !elem_of_cons, elem_of_nil. intros H.
        repeat (destruct H as [H|H]); try discriminate H; try exact H.
  - unfold handle_query. rewrite Hq.
    unfold pure, mbind, ui_bind. rewrite Hr. apply not_elem_of_nil.
Qed.

(** X18.  What escapes the script: only a failure of the retrieval, and, when no
    context was found, a failure to read the secrets; a failure of the
    generation or of a search provider never does. *)
Theorem handle_query_raises (w : world) (query : string) (t : spec_float)
    (e : exn) :
  (handle_query w query t []).1 = Raise e <->
  truthy query = true /\
  (retrieve_context_with_score (index w) query 3 t = Raise e \/
   exists context d,
     retrieve_context_with_score (index w) query 3 t = Return (context, d) /\
     found context = false /\ secret w = Raise e).
Proof.
  destruct (truthy query) eqn:Hq.
  - destruct (retrieve_context_with_score (index w) query 3 t)
      as [[context d]|e0] eqn:Hr.
    + destruct (found context) eqn:Hf.
      * apply found_Some in Hf as [c [-> Hc]].
        rewrite (handle_query_local w query t c d [] Hq Hr Hc). simpl fst.
        split; [discriminate|].
        intros [_ [H|(context' & d' & [= <- <-] & Hf & _)]];
          [discriminate|].
        assert (Ht : found (Some c) = true) by (apply found_Some; eauto).
        congruence.
      * destruct (secret w) as [v|e1] eqn:Hs.
        -- destruct (search_returns (web w) query (or_None v)) as [text Ht].
           rewrite (handle_query_fallback w query t context d v text []
                      Hq Hr Hf Hs Ht).
           simpl fst. split; [discriminate|].
           intros [_ [H|(context' & d' & _ & _ & H)]]; discriminate.
        -- unfold handle_query. rewrite Hq.
           unfold pure, show, mbind, ui_bind. rewrite Hr. cbn [fst snd].
           rewrite Hf, Hs. simpl fst. split.
           ++ intros [= <-]. split; [reflexivity|]. right. eauto.
           ++ intros [_ [H|(context' & d' & _ & _ & [= <-])]];
                [discriminate|reflexivity].
    + unfold handle_query. rewrite Hq.
      unfold pure, mbind, ui_bind. rewrite Hr. simpl fst. split.
      * intros [= <-]. auto.
      * intros [_ [[= <-]|(context' & d' & H & _)]];
          [reflexivity|discriminate].
  - unfold handle_query. rewrite Hq. simpl fst.
    split; [discriminate|]. intros [H _]. discriminate.
Qed.

Lemma handle_query_raises_witness :
  (handle_query no_secrets_world "aphids" one []).1
  = Raise (OSError "No secrets found").
Proof.
  apply (proj2 (handle_query_raises no_secrets_world "aphids" one
                  (OSError "No secrets found"))).
  split; [reflexivity|]. right. exists None, one_and_half.
  repeat split.
Defined.

(** X19.  With no key in the secrets, or an empty one, the script never calls
    SerpAPI: the only provider call of a run without context is the one to
    DuckDuckGo, made when its package imports. *)
Theorem no_key_only_duckduckgo (w : world) (query : string) (t : spec_float)
    (context : option string) (d : spec_float) (v : option string) :
  truthy query = true ->
  retrieve_context_with_score (index w) query 3 t = Return (context, d) ->
  found context = false ->
  secret w = Return v ->
  falsy v = true ->
  calls (handle_query w query t []).2 =
  match duckduckgo_search (web w) with
  | Return _ => [duckduckgo_call query]
  | Raise _ => []
  end.
Proof.
  intros Hq Hr Hf Hs Hv.
  destruct (search_returns (web w) query (or_None v)) as [text Ht].
  rewrite (handle_query_fallback w query t context d v text [] Hq Hr Hf Hs Ht).
  assert (Hk : falsy (or_None v) = true)
    by (unfold or_None; rewrite Hv; reflexivity).
  rewrite (search_without_key (web w) query (or_None v) Hk).
  simpl snd. unfold calls. simpl app. cbn [omap list_omap].
  rewrite omap_app.
  destruct (trace_of_calls
              match duckduckgo_search (web w) with
              | Return _ => [duckduckgo_call query]
              | Raise _ => []
              end) as (_ & H2 & _).
  rewrite H2. apply app_nil_r.
Qed.

Lemma no_key_only_duckduckgo_witness :
  calls (handle_query distant_world "aphids" one []).2
  = [duckduckgo_call "aphids"].
Proof.
  apply (no_key_only_duckduckgo distant_world "aphids" one None one_and_half
           (Some ""%string)); reflexivity.
Defined.

(** X20.  A retrieval that accepts its only candidate, a document with an empty
    content, is treated by the script as no context at all: the page
    says that nothing relevant was found, the web search runs, with the key
    of the secrets, its provider calls being the only calls, its text is
    shown under the results heading, and [ollama] does not run. *)
Theorem blank_context_goes_to_search (w : world) (db : VectorIndex)
    (query : string) (t d : spec_float) (v : option string) :
  truthy query = true ->
  embeddings (index w) = Return tt ->
  index_file (index w) = Some (Return db) ->
  similarity_search_with_score db query 3 = Return [(""%string, d)] ->
  SFltb (Float32.to_float32 t) d = false ->
  secret w = Return v ->
  retrieve_context_with_score (index w) query 3 t = Return (Some ""%string, d) /\
  exists tr live_results,
    handle_query w query t [] = (Return tt, tr) /\
    (comprehensive_fallback_search (web w) query (or_None v) []).1
    = Return live_results /\
    runs tr = [] /\
    calls tr = (comprehensive_fallback_search (web w) query (or_None v) []).2 /\
    shown tr =
    [warning "⚠️ **No relevant local context found in KCC dataset**";
     info ("Similarity threshold: " +:+ str_float w t +:+
           " | Best match distance: " +:+ format_3f w d)%string;
     markdown "🌐 **Searching the internet for agricultural advice...**";
     subheader "🌐 Live Internet Search Results:";
     markdown live_results;
     caption ("⚠️ **Disclaimer:** These results are from live internet search " +:+
              "and may not be verified agricultural advice. Please consult " +:+
              "local agricultural experts for specific recommendations.")%string].
Proof.
  intros Hq He Hi Hs Hgt Hv.
  assert (Hr : retrieve_context_with_score (index w) query 3 t
               = Return (Some ""%string, d)).
  { rewrite (RetrievalFacts.retrieve_loaded (index w) db query 3 t _ He Hi Hs).
    unfold gt, Float32.gt. rewrite Hgt. reflexivity. }
  split; [exact Hr|].
  destruct (search_returns (web w) query (or_None v)) as [text Ht].
  rewrite (handle_query_fallback w query t (Some ""%string) d v text []
             Hq Hr eq_refl Hv Ht).
  do 2 eexists. split; [reflexivity|]. split; [exact Ht|].
  set (log := (comprehensive_fallback_search (web w) query (or_None v) []).2).
  unfold runs, calls, shown. simpl app.
  destruct (trace_of_calls log) as (H1 & H2 & H3).
  cbn [omap list_omap]. rewrite !omap_app, H1, H2, H3.
  repeat split. apply app_nil_r.
Qed.

Lemma blank_context_goes_to_search_witness :
  retrieve_context_with_score (index blank_world) "aphids" 3 one
  = Return (Some ""%string, half) /\
  exists tr live_results,
    handle_query blank_world "aphids" one [] = (Return tt, tr) /\
    (comprehensive_fallback_search (web blank_world) "aphids"
       (or_None None) []).1
    = Return live_results /\
    runs tr = [] /\
    calls tr = (comprehensive_fallback_search (web blank_world) "aphids"
                  (or_None None) []).2 /\
    shown tr =
    [warning "⚠️ **No relevant local context found in KCC dataset**";
     info ("Similarity threshold: " +:+ str_float blank_world one +:+
           " | Best match distance: " +:+
           format_3f blank_world half)%string;
     markdown "🌐 **Searching the internet for agricultural advice...**";
     subheader "🌐 Live Internet Search Results:";
     markdown live_results;
     caption ("⚠️ **Disclaimer:** These results are from live internet search " +:+
              "and may not be verified agricultural advice. Please consult " +:+
              "local agricultural experts for specific recommendations.")%string].
Proof.
  apply (blank_context_goes_to_search blank_world
           {| similarity_search_with_score := fun _ _ =>
                Return [(""%string, half)] |}
           "aphids" one half None); reflexivity.
Defined.

(** In that run the one provider called is DuckDuckGo. *)
Example blank_context_calls :
  calls (handle_query blank_world "aphids" one []).2
  = [duckduckgo_call "aphids"] /\
  runs (handle_query blank_world "aphids" one []).2 = [].
Proof. split; reflexivity. Qed.

(** X21.  The relevance shown on line 96 follows the distance: a distance below
    another one is rated at least as well, and a distance that is not a
    number is rated [Low]. *)
Theorem quality_monotone (d1 d2 : spec_float) :
  SFleb d1 d2 = true ->
  (quality d2 = "High"%string -> quality d1 = "High"%string) /\
  (quality d2 <> "Low"%string -> quality d1 <> "Low"%string) /\
  quality S754_nan = "Low"%string.
Proof.
  intros Hle. unfold quality, Float32.lt.
  set (a := Float32.to_float32 c0_7). set (b := Float32.to_float32 c1_2).
  repeat split.
  - destruct (SFltb d2 a) eqn:E2.
    + rewrite (RetrievalFacts.SFleb_SFltb_trans d1 d2 a Hle E2). reflexivity.
    + destruct (SFltb d2 b); discriminate.
  - destruct (SFltb d2 a) eqn:E2.
    + rewrite (RetrievalFacts.SFleb_SFltb_trans d1 d2 a Hle E2).
      discriminate.
    + destruct (SFltb d2 b) eqn:E3; [|congruence].
      rewrite (RetrievalFacts.SFleb_SFltb_trans d1 d2 b Hle E3).
      destruct (SFltb d1 a); discriminate.
Qed.

Lemma quality_monotone_witness :
  (quality one = "High"%string -> quality half = "High"%string) /\
  (quality one <> "Low"%string -> quality half <> "Low"%string) /\
  quality S754_nan = "Low"%string.
Proof. apply (quality_monotone half one). reflexivity. Defined.

(** X22.  The retrieval and line 95 both compare the distance in single
    precision.  With a threshold that is, once rounded to single precision,
    below the [float32] next to 1.2, as the default 1.0 is, a context that
    is found is never rated [Low], unless its distance is not a number. *)
Theorem accepted_is_not_low (st : store) (query : string) (top_k : nat)
    (t : spec_float) (c : string) (d : spec_float) :
  retrieve_context_with_score st query top_k t = Return (Some c, d) ->
  SFltb (Float32.to_float32 t) (Float32.to_float32 c1_2) = true ->
  d <> S754_nan ->
  quality d <> "Low"%string.
Proof.
  intros Hr Ht Hd. apply accepted_not_above in Hr. unfold gt, Float32.gt in Hr.
  set (t32 := Float32.to_float32 t) in *.
  assert (Htn : t32 <> S754_nan) by (intros E; rewrite E in Ht; discriminate Ht).
  pose proof (RetrievalEdges.SFltb_false_SFleb t32 d Htn Hd Hr) as Hle.
  unfold quality, Float32.lt.
  rewrite (RetrievalFacts.SFleb_SFltb_trans d t32 _ Hle Ht).
  destruct (SFltb d (Float32.to_float32 c0_7)); discriminate.
Qed.

Lemma accepted_is_not_low_witness : quality half <> "Low"%string.
Proof.
  apply (accepted_is_not_low built "aphids" 3 one
           ("near" +:+ nl +:+ nl +:+ "far") half).
  - reflexivity.
  - reflexivity.
  - discriminate.
Defined.

(** At the threshold 2.0 a distance of 1.5 is accepted and rated [Low];
    and so is, at the last Python float below 1.2, which rounds to the
    [float32] next to 1.2, a distance that is that [float32]. *)
Example accepted_and_low :
  retrieve_context_with_score distant "aphids" 3 two
  = Return (Some "d"%string, one_and_half) /\
  quality one_and_half = "Low"%string /\
  SFltb below_1_2 c1_2 = true /\
  retrieve_context_with_score at_1_2 "aphids" 3 below_1_2
  = Return (Some "c"%string, f1_2) /\
  quality f1_2 = "Low"%string.
Proof. repeat split. Qed.

(** The [float32] next to 0.7 is below 0.7: a distance there is rated
    [Medium], and the [float32] before it [High]. *)
Example quality_at_0_7 :
  quality (S754_finite false 6305039370944512 (-53)) = "Medium"%string /\
  quality (S754_finite false 6305038834073600 (-53)) = "High"%string.
Proof. split; reflexivity. Qed.

End AppFacts.
